(** * Branch-scoped authorization of the Steakz backend

    A shallow embedding of [backend/middleware/rbac.js] and of the
    authorization paths of [backend/server.js], together with the
    properties of the branch resolver, the branch access check, the
    CHEF category restriction, the middleware order and the
    active-branch update.

    Conventions of the embedding.
    - JavaScript values that reach the authorization code are
      [undefined], [null], booleans, numbers and strings.  Numbers are
      modelled by [NaN] and the integral values ([Z]).  The model of a
      number is exact on the safe integers ([safe_integer], below 2^53
      in absolute value), where a double is an exact integer and
      [Number::toString] is the plain decimal rendering; branch and user
      ids are INTEGER columns, well inside them.  A number a client
      sends may lie outside: the properties about such numbers carry
      the bound.  [-0] is identified with [0] (the code only tests them
      with [!] and [!==], which do not distinguish them).
    - A string is the sequence of its code units, all below 256.  The
      white space of [parseInt] is the white space among these;
      [toUpperCase] is exact on ASCII strings, which the stored roles
      are.
    - A middleware either calls [next()] (possibly after writing to the
      request) or answers with a status and a JSON message.
    - [await] is sequencing; the Prisma tables are finite maps. *)

From Stdlib Require Import ZArith Ascii String List Decimal DecimalString DecimalZ DecimalPos.
From stdpp Require Import base option gmap.
Import ListNotations.
Local Open Scope string_scope.
Local Open Scope Z_scope.

(** ** JavaScript values and the primitives the code uses *)

Module JS.

(** A number: [NaN] or an integral value. *)
Inductive num : Type :=
| NaN
| Int (z : Z).

Inductive value : Type :=
| Undefined
| Null
| Bool (b : bool)
| Num (n : num)
| Str (s : string).

(** [Number.isSafeInteger]: the integers a double holds exactly and on
    which the model of the numbers is exact. *)
Definition safe_integer (z : Z) : Prop :=
  -9007199254740992 < z < 9007199254740992.

(** [v == null], true of [null] and [undefined] only. *)
Definition is_nullish (v : value) : bool :=
  match v with
  | Undefined | Null => true
  | _ => false
  end.

(** [a ?? b] *)
Definition nullish_or (a b : value) : value :=
  if is_nullish a then b else a.

(** ToBoolean on numbers: [0] and [NaN] are falsy. *)
Definition num_truthy (n : num) : bool :=
  match n with
  | NaN => false
  | Int z => negb (z =? 0)
  end.

(** ToBoolean *)
Definition truthy (v : value) : bool :=
  match v with
  | Undefined | Null => false
  | Bool b => b
  | Num n => num_truthy n
  | Str s => negb (String.eqb s "")
  end.

(** Strict equality of numbers: [NaN] is different from everything. *)
Definition num_strict_eq (a b : num) : bool :=
  match a, b with
  | Int x, Int y => x =? y
  | _, _ => false
  end.

(** [Number::toString] for the numbers of the model: the decimal
    rendering, which is what JavaScript prints for a safe integer (from
    10^21 on it prints an exponent). *)
Definition num_to_string (n : num) : string :=
  match n with
  | NaN => "NaN"
  | Int z => NilZero.string_of_int (Z.to_int z)
  end.

(** ToString *)
Definition to_string (v : value) : string :=
  match v with
  | Undefined => "undefined"
  | Null => "null"
  | Bool true => "true"
  | Bool false => "false"
  | Num n => num_to_string n
  | Str s => s
  end.

Definition upper_char (c : ascii) : ascii :=
  let n := nat_of_ascii c in
  if ((97 <=? n) && (n <=? 122))%nat then ascii_of_nat (n - 32) else c.

(** [String.prototype.toUpperCase] *)
Fixpoint toUpperCase (s : string) : string :=
  match s with
  | EmptyString => EmptyString
  | String c s' => String (upper_char c) (toUpperCase s')
  end.

(** White space skipped by [parseInt], among the code units below 256:
    TAB, LF, VT, FF, CR, SPACE and NO-BREAK SPACE (U+00A0). *)
Definition is_white (c : ascii) : bool :=
  let n := nat_of_ascii c in
  (((9 <=? n) && (n <=? 13)) || (n =? 32) || (n =? 160))%nat.

Fixpoint trim_start (s : string) : string :=
  match s with
  | String c s' => if is_white c then trim_start s' else s
  | EmptyString => EmptyString
  end.

(** The value of [c] as a digit, at most 35. *)
Definition char_digit (c : ascii) : option Z :=
  let n := Z.of_nat (nat_of_ascii c) in
  if (48 <=? n) && (n <=? 57) then Some (n - 48)
  else if (97 <=? n) && (n <=? 122) then Some (n - 87)
  else if (65 <=? n) && (n <=? 90) then Some (n - 55)
  else None.

Definition radix_digit (radix : Z) (c : ascii) : option Z :=
  match char_digit c with
  | Some d => if d <? radix then Some d else None
  | None => None
  end.

(** The longest prefix of radix digits, read most significant digit
    first; [acc] is [None] as long as no digit was seen. *)
Fixpoint parse_digits (radix : Z) (s : string) (acc : option Z) : option Z :=
  match s with
  | EmptyString => acc
  | String c s' =>
      match radix_digit radix c with
      | Some d => parse_digits radix s' (Some (radix * default 0 acc + d))
      | None => acc
      end
  end.

(** The sign and what follows it. *)
Definition strip_sign (s : string) : Z * string :=
  match s with
  | String "-"%char s' => (-1, s')
  | String "+"%char s' => (1, s')
  | _ => (1, s)
  end.

(** The radix and what follows a [0x] or [0X] prefix. *)
Definition strip_prefix (s : string) : Z * string :=
  match s with
  | String "0"%char (String "x"%char s') => (16, s')
  | String "0"%char (String "X"%char s') => (16, s')
  | _ => (10, s)
  end.

(** [parseInt(string)] with no radix argument, on a string.  The digits
    are read as a mathematical integer, of which JavaScript returns the
    nearest double: the result is exact when it is [NaN] or a safe
    integer. *)
Definition parseInt_string (s : string) : num :=
  let '(sign, s1) := strip_sign (trim_start s) in
  let '(radix, s2) := strip_prefix s1 in
  match parse_digits radix s2 None with
  | None => NaN
  | Some m => Int (sign * m)
  end.

(** [parseInt(v)]: the argument is first converted with ToString. *)
Definition parseInt (v : value) : num :=
  parseInt_string (to_string v).

End JS.

(** ** Requests, the Prisma tables and answers *)

Module Http.

(** The [User] object that [authenticateToken] puts on the request: a
    row of the [User] table with its primary key.  [user_role] is the
    stored role string ([""] when the session has no role);
    [user_branchId] is the home branch, [None] for a missing one. *)
Record User : Type := mkUser {
  user_id : Z;
  user_role : string;
  user_branchId : option Z;
  user_activeBranchId : option Z;
  user_password : string
}.

(** A row of the [User] table, stored under its id. *)
Record UserRow : Type := mkRow {
  row_role : string;
  row_branchId : option Z;
  row_activeBranchId : option Z;
  row_password : string
}.

Record DB : Type := mkDB {
  users : gmap Z UserRow;
  branches : gset Z
}.

Definition user_of_row (i : Z) (r : UserRow) : User :=
  mkUser i (row_role r) (row_branchId r) (row_activeBranchId r) (row_password r).

(** [prisma.user.findUnique({ where: { id } })] *)
Definition user_findUnique (db : DB) (i : Z) : option User :=
  user_of_row i <$> users db !! i.

(** [prisma.branch.findUnique({ where: { id } })], as a presence test. *)
Definition branch_exists (db : DB) (i : Z) : bool :=
  bool_decide (i ∈ branches db).

Record Body : Type := mkBody {
  body_branchId : JS.value;
  body_password : JS.value;
  body_newPassword : JS.value
}.

(** The parts of an Express request read by the authorization code.
    [req_body] is [None] when no body was parsed; [req_user] and
    [req_activeBranchId] are the fields the middlewares write. *)
Record Req : Type := mkReq {
  req_authorization : option string;
  req_params_id : string;
  req_params_branchId : string;
  req_query_branchId : JS.value;
  req_body : option Body;
  req_user : option User;
  req_activeBranchId : option Z
}.

Definition set_user (req : Req) (u : User) : Req :=
  mkReq (req_authorization req) (req_params_id req) (req_params_branchId req)
        (req_query_branchId req) (req_body req) (Some u) (req_activeBranchId req).

Definition set_activeBranchId (req : Req) (a : option Z) : Req :=
  mkReq (req_authorization req) (req_params_id req) (req_params_branchId req)
        (req_query_branchId req) (req_body req) (req_user req) a.

(** What a middleware does: [next()] with the request as it left it, or
    [res.status(status).json({ message })]. *)
Inductive step : Type :=
| Next (req : Req)
| Respond (status : Z) (message : string).

Definition Middleware : Type := Req -> step.

(** Express runs the handlers of a route in order; one that answers
    without calling [next()] ends the request. *)
Fixpoint run_chain (ms : list Middleware) (req : Req) : step :=
  match ms with
  | [] => Next req
  | m :: ms' =>
      match m req with
      | Next req' => run_chain ms' req'
      | Respond status message => Respond status message
      end
  end.

(** A branch id or [null] as a JavaScript value. *)
Definition of_id (o : option Z) : JS.value :=
  match o with
  | Some z => JS.Num (JS.Int z)
  | None => JS.Null
  end.

(** A branch id or [undefined] as a JavaScript value. *)
Definition of_id' (o : option Z) : JS.value :=
  match o with
  | Some z => JS.Num (JS.Int z)
  | None => JS.Undefined
  end.

End Http.

(** ** [backend/middleware/rbac.js] *)

Module Rbac.
Import JS Http.

(** [req.user?.role] *)
Definition req_role (req : Req) : option string :=
  user_role <$> req_user req.

(** [req.user?.branchId] *)
Definition req_branchId (req : Req) : option Z :=
  req_user req ≫= user_branchId.

(** [(role || '').toString().toUpperCase()] *)
Definition normalizeRole (role : option string) : string :=
  toUpperCase (default "" role).

(** [allowed.join(', ')] *)
Definition join (sep : string) (l : list string) : string :=
  String.concat sep l.

Definition requireRoles (allowedRoles : list string) : Middleware :=
  let allowed := map (fun r => normalizeRole (Some r)) allowedRoles in
  fun req =>
    let role := normalizeRole (req_role req) in
    if String.eqb role "" then Respond 401 "Authentication required"
    else if negb (existsb (String.eqb role) allowed) then
      Respond 403 ("Access denied: role " ++ role ++ " requires " ++ join ", " allowed)
    else Next req.

(** A resolver call returns or throws. *)
Inductive completion (A : Type) : Type :=
| Normal (a : A)
| Throw.
Arguments Normal {A} a.
Arguments Throw {A}.

(** The argument of [enforceBranchAccess]: a number, [null], or a
    function of the request returning one of them. *)
Inductive Resolver : Type :=
| Const (v : option num)
| Fun (f : Req -> completion (option num)).

Definition resolve (resolver : Resolver) (req : Req) : completion (option num) :=
  match resolver with
  | Const v => Normal v
  | Fun f => f req
  end.

(** [!resourceBranchId], for [number | null]. *)
Definition falsy_branch (b : option num) : bool :=
  match b with
  | None => true
  | Some n => negb (num_truthy n)
  end.

(** [!userBranchId], for [number | undefined]. *)
Definition falsy_id (b : option Z) : bool :=
  match b with
  | None => true
  | Some z => z =? 0
  end.

(** [Number(resourceBranchId)], for [number | null]: [Number(null)] is 0. *)
Definition Number_branch (b : option num) : num :=
  default (Int 0) b.

(** [Number(userBranchId)], for [number | undefined]: [Number(undefined)]
    is [NaN]. *)
Definition Number_id (b : option Z) : num :=
  match b with
  | Some z => Int z
  | None => NaN
  end.

Definition mismatch_message (resourceBranchId : option num) (userBranchId : option Z) : string :=
  "Branch access denied: resource branch " ++ to_string (match resourceBranchId with Some n => Num n | None => Null end)
  ++ " does not match active branch " ++ to_string (of_id userBranchId).

Definition enforceBranchAccess (resolver : Resolver) : Middleware :=
  fun req =>
    let role := normalizeRole (req_role req) in
    if String.eqb role "" then Respond 401 "Authentication required"
    else if String.eqb role "ADMIN" then Next req
    else
      let userBranchId := req_branchId req in
      match resolve resolver req with
      | Throw => Respond 500 "Branch enforcement failed"
      | Normal resourceBranchId =>
          if falsy_branch resourceBranchId then Respond 400 "Branch context required"
          else if falsy_id userBranchId then
            Respond 403 "Branch access denied: no active branch"
          else if negb (num_strict_eq (Number_branch resourceBranchId)
                                      (Number_id userBranchId)) then
            Respond 403 (mismatch_message resourceBranchId userBranchId)
          else Next req
      end.

Definition requireChefOrdersOnly : Middleware :=
  fun req =>
    let role := normalizeRole (req_role req) in
    if negb (String.eqb role "CHEF") then Next req
    else if falsy_id (req_branchId req) then
      Respond 403 "CHEF: Branch assignment required"
    else Next (set_activeBranchId req (req_branchId req)).

Definition blockChefFromNonOrders : Middleware :=
  fun req =>
    let role := normalizeRole (req_role req) in
    if String.eqb role "CHEF" then
      Respond 403 "CHEF role can only access Orders. Access denied."
    else Next req.

(** [getUserBranchId]: [userBranch ?? activeBranch], as a number. *)
Definition getUserBranchId (req : Req) : option num :=
  let userBranch := req_branchId req in
  let activeBranch := req_activeBranchId req in
  let resolved :=
    match userBranch with
    | Some b => Some b
    | None => activeBranch
    end in
  Int <$> resolved.

End Rbac.

(** ** [backend/server.js] *)

Module Server.
Import JS Http Rbac.

(** [jwt.verify(token, secret).userId]: [None] when verification throws
    or the payload carries no integer [userId]. *)
Definition Jwt : Type := string -> option Z.

(** [s.split(sep)] for a one-character separator. *)
Fixpoint split (sep : ascii) (s : string) : list string :=
  match s with
  | EmptyString => [EmptyString]
  | String c s' =>
      if Ascii.eqb c sep then EmptyString :: split sep s'
      else match split sep s' with
           | h :: t => String c h :: t
           | [] => [String c EmptyString]
           end
  end.

(** [authHeader && authHeader.split(' ')[1]], [None] when the result is
    falsy. *)
Definition bearer_token (authHeader : option string) : option string :=
  match authHeader with
  | None => None
  | Some h =>
      match nth_error (split " "%char h) 1 with
      | Some t => if String.eqb t "" then None else Some t
      | None => None
      end
  end.

Definition authenticateToken (jwt : Jwt) (db : DB) : Middleware :=
  fun req =>
    match bearer_token (req_authorization req) with
    | None => Respond 401 "Authentication required"
    | Some token =>
        match jwt token with
        | None => Respond 401 "Invalid token"
        | Some userId =>
            match user_findUnique db userId with
            | None => Respond 401 "User not found"
            | Some user => Next (set_user req user)
            end
        end
    end.

(** [u?.activeBranchId || null] *)
Definition or_null (a : option Z) : option Z :=
  match a with
  | Some z => if z =? 0 then None else Some z
  | None => None
  end.

Definition attachActiveBranch (db : DB) : Middleware :=
  fun req =>
    match req_user req with
    | None => Next req
    | Some user =>
        let u := user_findUnique db (user_id user) in
        Next (set_activeBranchId req (or_null (u ≫= user_activeBranchId)))
    end.

(** [chosen != null ? parseInt(chosen) : null] *)
Definition parse_or_null (chosen : value) : option num :=
  if is_nullish chosen then None else Some (parseInt chosen).

Definition resolveBranchId (req : Req) (candidate : value) : option num :=
  let role := toUpperCase (default "" (req_role req)) in
  if negb (String.eqb role "ADMIN") then
    parse_or_null (of_id (req_branchId req))
  else
    let chosen :=
      nullish_or
        (nullish_or
           (nullish_or candidate (of_id (req_activeBranchId req)))
           (of_id (req_branchId req)))
        Null in
    parse_or_null chosen.

(** The [where] argument of a [findMany]: for each key, absent, or
    present with its value. *)
Record Where : Type := mkWhere {
  where_branchId : option (option num);
  where_userId : option Z
}.

Inductive Query : Type :=
| FindMany (model : string) (w : Where)
| StaffOfBranch (branchId : num).

(** How a request ends: an answer [{ message }] with a status, the rows
    of a query the handler issued, or the [{ activeBranchId }] answer of
    the active-branch update. *)
Inductive outcome : Type :=
| Answer (status : Z) (message : string)
| Rows (q : Query)
| ActiveBranch (activeBranchId : Z).

(** A route: its middlewares, then its handler. *)
Definition route (ms : list Middleware) (handler : Req -> outcome) (req : Req) : outcome :=
  match run_chain ms req with
  | Next req' => handler req'
  | Respond status message => Answer status message
  end.

(** [GET /api/inventory/:branchId] *)
Definition inventory_resolver : Resolver :=
  Fun (fun req => Normal (resolveBranchId req (Str (req_params_branchId req)))).

Definition inventory_guards (jwt : Jwt) (db : DB) : list Middleware :=
  [ authenticateToken jwt db;
    attachActiveBranch db;
    blockChefFromNonOrders;
    requireRoles ["ADMIN"; "MANAGER"; "STAFF"];
    enforceBranchAccess inventory_resolver ].

(** What Prisma accepts as the [branchId] of the [where]: an integer of
    the INTEGER column (32 bits).  With [null], [NaN] or an integer out
    of range [findMany] throws. *)
Definition prisma_int (v : option num) : option Z :=
  match v with
  | Some (Int z) =>
      if (-2147483648 <=? z) && (z <=? 2147483647) then Some z else None
  | _ => None
  end.

Definition inventory_handler (req : Req) : outcome :=
  let branchId := resolveBranchId req (Str (req_params_branchId req)) in
  match prisma_int branchId with
  | Some _ => Rows (FindMany "inventoryItem" (mkWhere (Some branchId) None))
  | None => Answer 400 "Error fetching inventory"
  end.

Definition GET_inventory (jwt : Jwt) (db : DB) : Req -> outcome :=
  route (inventory_guards jwt db) inventory_handler.

(** [GET /api/reservations] *)
Definition reservations_candidate (req : Req) : value :=
  nullish_or (req_query_branchId req) (of_id (req_activeBranchId req)).

Definition reservations_resolver : Resolver :=
  Fun (fun req => Normal (resolveBranchId req (reservations_candidate req))).

Definition reservations_guards (jwt : Jwt) (db : DB) : list Middleware :=
  [ authenticateToken jwt db;
    attachActiveBranch db;
    blockChefFromNonOrders;
    requireRoles ["ADMIN"; "MANAGER"; "STAFF"; "CUSTOMER"];
    enforceBranchAccess reservations_resolver ].

Definition reservations_handler (req : Req) : outcome :=
  let role := toUpperCase (default "" (req_role req)) in
  let branchId := resolveBranchId req (reservations_candidate req) in
  let by_user := if String.eqb role "CUSTOMER" then user_id <$> req_user req else None in
  Rows (FindMany "reservation"
          (mkWhere (if falsy_branch branchId then None else Some branchId) by_user)).

Definition GET_reservations (jwt : Jwt) (db : DB) : Req -> outcome :=
  route (reservations_guards jwt db) reservations_handler.

(** [GET /api/admin/staff/:branchId] *)
Definition staff_guards (jwt : Jwt) (db : DB) : list Middleware :=
  [ authenticateToken jwt db;
    requireRoles ["ADMIN"; "MANAGER"] ].

Definition staff_handler (req : Req) : outcome :=
  let branchId := parseInt (Str (req_params_branchId req)) in
  match branchId with
  | NaN => Answer 400 "Invalid branchId"
  | Int _ =>
      let role := toUpperCase (default "" (req_role req)) in
      if negb (String.eqb role "ADMIN")
         && negb (num_strict_eq (parseInt (of_id' (req_branchId req))) branchId)
      then Answer 403 "Branch access denied"
      else Rows (StaffOfBranch branchId)
  end.

Definition GET_admin_staff (jwt : Jwt) (db : DB) : Req -> outcome :=
  route (staff_guards jwt db) staff_handler.

(** *** The routes that write to the [User] table

    Their handlers take the tables and give them back.  A [catch]
    answers and leaves the tables as they were: every handler makes at
    most one write, as its last Prisma call. *)

Definition route_db (ms : list Middleware) (handler : DB -> Req -> outcome * DB)
    (db : DB) (req : Req) : outcome * DB :=
  match run_chain ms req with
  | Next req' => handler db req'
  | Respond status message => (Answer status message, db)
  end.

(** [prisma.user.update({ where: { id }, data: { activeBranchId } })],
    [None] when no row has this id (Prisma throws). *)
Definition user_update_activeBranchId (db : DB) (i b : Z) : option DB :=
  match users db !! i with
  | Some r =>
      Some (mkDB (<[i := mkRow (row_role r) (row_branchId r) (Some b) (row_password r)]> (users db))
                 (branches db))
  | None => None
  end.

(** [prisma.user.update({ where: { id }, data: { password } })] *)
Definition user_update_password (db : DB) (i : Z) (p : string) : option DB :=
  match users db !! i with
  | Some r =>
      Some (mkDB (<[i := mkRow (row_role r) (row_branchId r) (row_activeBranchId r) p]> (users db))
                 (branches db))
  | None => None
  end.

(** [PATCH /api/users/:id/active-branch].  Prisma refuses an id that is
    not an integer, which the handler's [catch] answers with 400. *)
Definition active_branch_handler (db : DB) (req : Req) : outcome * DB :=
  let failed := (Answer 400 "Error updating active branch", db) in
  let userId := parseInt (Str (req_params_id req)) in
  match req_user req with
  | None => failed
  | Some user =>
      if negb (num_strict_eq userId (Int (user_id user))) then
        (Answer 403 "Cannot modify other user active branch", db)
      else
        match req_body req with
        | None => failed
        | Some body =>
            let branchId := body_branchId body in
            if negb (truthy branchId) then (Answer 400 "branchId required", db)
            else
              match branchId, userId with
              | Num (Int b), Int i =>
                  if negb (branch_exists db b) then (Answer 404 "Branch not found", db)
                  else
                    match user_update_activeBranchId db i b with
                    | Some db' => (ActiveBranch b, db')
                    | None => failed
                    end
              | _, _ => failed
              end
        end
  end.

Definition PATCH_users_active_branch (jwt : Jwt) (db : DB) : Req -> outcome * DB :=
  route_db [authenticateToken jwt db; requireRoles ["ADMIN"]] active_branch_handler db.

(** [bcrypt.hash(password, 10)] *)
Definition Hash : Type := string -> string.

(** The common tail of the two password resets: look the user up, hash,
    update. *)
Definition reset_password (hash : Hash) (db : DB) (userId : num) (password : string)
    : outcome * DB :=
  let failed := (Answer 500 "Error resetting password", db) in
  match userId with
  | NaN => failed
  | Int i =>
      match user_findUnique db i with
      | None => (Answer 404 "User not found", db)
      | Some _ =>
          match user_update_password db i (hash password) with
          | Some db' => (Answer 200 "Password reset successfully", db')
          | None => failed
          end
      end
  end.

(** [!newPassword || newPassword.length < 3], and the string when the
    test lets it through; a truthy non-string has no [length] and makes
    [bcrypt.hash] throw. *)
Definition checked_password (v : value) : option (option string) :=
  if negb (truthy v) then None
  else match v with
       | Str s => if (Z.of_nat (String.length s) <? 3) then None else Some (Some s)
       | _ => Some None
       end.

(** [PATCH /api/admin/staff/:id/reset-password] *)
Definition staff_reset_handler (hash : Hash) (db : DB) (req : Req) : outcome * DB :=
  let failed := (Answer 500 "Error resetting password", db) in
  let userId := parseInt (Str (req_params_id req)) in
  match req_body req with
  | None => failed
  | Some body =>
      match checked_password (body_password body) with
      | None => (Answer 400 "Password must be at least 3 characters", db)
      | Some None =>
          match userId with
          | NaN => failed
          | Int i =>
              match user_findUnique db i with
              | Some _ => failed
              | None => (Answer 404 "User not found", db)
              end
          end
      | Some (Some p) => reset_password hash db userId p
      end
  end.

Definition PATCH_admin_staff_reset_password (jwt : Jwt) (hash : Hash) (db : DB)
    : Req -> outcome * DB :=
  route_db [authenticateToken jwt db; requireRoles ["ADMIN"]] (staff_reset_handler hash) db.

(** [POST /api/admin/users/:id/reset-password] *)
Definition user_reset_handler (hash : Hash) (db : DB) (req : Req) : outcome * DB :=
  let failed := (Answer 500 "Error resetting password", db) in
  match req_body req with
  | None => failed
  | Some body =>
      match checked_password (body_newPassword body) with
      | None => (Answer 400 "Password must be at least 3 characters", db)
      | Some p =>
          let userId := parseInt (Str (req_params_id req)) in
          match userId with
          | NaN => (Answer 400 "Invalid user ID", db)
          | Int i =>
              match p with
              | Some p => reset_password hash db userId p
              | None =>
                  match user_findUnique db i with
                  | Some _ => failed
                  | None => (Answer 404 "User not found", db)
                  end
              end
          end
      end
  end.

Definition POST_admin_users_reset_password (jwt : Jwt) (hash : Hash) (db : DB)
    : Req -> outcome * DB :=
  route_db [authenticateToken jwt db; requireRoles ["ADMIN"]] (user_reset_handler hash) db.

(** The routes of [server.js] that call [prisma.user.update]. *)
Inductive UserUpdate : Type :=
| ActiveBranchUpdate
| StaffPasswordReset
| UserPasswordReset.

Definition user_update_route (op : UserUpdate) (jwt : Jwt) (hash : Hash) (db : DB)
    : Req -> outcome * DB :=
  match op with
  | ActiveBranchUpdate => PATCH_users_active_branch jwt db
  | StaffPasswordReset => PATCH_admin_staff_reset_password jwt hash db
  | UserPasswordReset => POST_admin_users_reset_password jwt hash db
  end.

(** The persisted [activeBranchId] of the user with id [i]. *)
Definition activeBranchId_of (db : DB) (i : Z) : option Z :=
  users db !! i ≫= row_activeBranchId.

(** *** The routes with a category check

    Besides the inventory list and the reservation list: the guards of
    the other routes that list [blockChefFromNonOrders]. *)

(** [(req) => resolveBranchId(req, req.body.branchId)]: reading
    [req.body.branchId] throws when no body was parsed. *)
Definition body_resolver : Resolver :=
  Fun (fun req =>
         match req_body req with
         | Some body => Normal (resolveBranchId req (body_branchId body))
         | None => Throw
         end).

(** [POST /api/reservations/create] *)
Definition reservations_create_guards (jwt : Jwt) (db : DB) : list Middleware :=
  [ authenticateToken jwt db;
    attachActiveBranch db;
    blockChefFromNonOrders;
    requireRoles ["ADMIN"; "MANAGER"; "STAFF"; "CUSTOMER"];
    enforceBranchAccess body_resolver ].

(** [GET /api/reservations/:branchId] *)
Definition reservations_branch_guards (jwt : Jwt) (db : DB) : list Middleware :=
  [ authenticateToken jwt db;
    attachActiveBranch db;
    blockChefFromNonOrders;
    requireRoles ["ADMIN"; "MANAGER"; "STAFF"; "CUSTOMER"];
    enforceBranchAccess inventory_resolver ].

(** [PATCH /api/reservations/status/:id] *)
Definition reservation_status_guards (jwt : Jwt) (db : DB) : list Middleware :=
  [ authenticateToken jwt db;
    blockChefFromNonOrders;
    requireRoles ["ADMIN"; "MANAGER"; "STAFF"] ].

(** [POST /api/feedback/create] *)
Definition feedback_create_guards (jwt : Jwt) (db : DB) : list Middleware :=
  [ authenticateToken jwt db;
    attachActiveBranch db;
    blockChefFromNonOrders;
    requireRoles ["ADMIN"; "MANAGER"; "STAFF"; "CUSTOMER"];
    enforceBranchAccess body_resolver ].

(** [GET /api/feedback/:branchId] *)
Definition feedback_branch_guards (jwt : Jwt) (db : DB) : list Middleware :=
  [ authenticateToken jwt db;
    attachActiveBranch db;
    blockChefFromNonOrders;
    requireRoles ["ADMIN"; "MANAGER"; "STAFF"; "CUSTOMER"];
    enforceBranchAccess inventory_resolver ].

(** The guards of every route of [server.js] that lists
    [blockChefFromNonOrders]. *)
Definition category_checked_guards (jwt : Jwt) (db : DB) : list (list Middleware) :=
  [ inventory_guards jwt db;
    reservations_create_guards jwt db;
    reservations_guards jwt db;
    reservations_branch_guards jwt db;
    reservation_status_guards jwt db;
    feedback_create_guards jwt db;
    feedback_branch_guards jwt db ].

(** *** Order lists *)

Definition all_roles : list string := ["ADMIN"; "MANAGER"; "CHEF"; "STAFF"; "CUSTOMER"].

(** [...(role === 'CUSTOMER' ? { userId: req.user.id } : {})] *)
Definition customer_filter (req : Req) : option Z :=
  let role := toUpperCase (default "" (req_role req)) in
  if String.eqb role "CUSTOMER" then user_id <$> req_user req else None.

(** [GET /api/orders/:branchId] *)
Definition orders_branch_guards (jwt : Jwt) (db : DB) : list Middleware :=
  [ authenticateToken jwt db;
    attachActiveBranch db;
    requireRoles all_roles;
    enforceBranchAccess inventory_resolver ].

Definition orders_branch_handler (req : Req) : outcome :=
  let branchId := resolveBranchId req (Str (req_params_branchId req)) in
  if falsy_branch branchId then Answer 400 "branchId is required"
  else Rows (FindMany "order" (mkWhere (Some branchId) (customer_filter req))).

Definition GET_orders_branch (jwt : Jwt) (db : DB) : Req -> outcome :=
  route (orders_branch_guards jwt db) orders_branch_handler.

(** *** Updates of a resource named by its id

    The handlers read the resource with
    [findUnique({ where: { id }, select: { id, branchId } })]: a table
    is modelled by this projection, from the id to the owning branch.
    A handler ends with an answer or with its one write, of which the
    model keeps the table and the row. *)

Inductive Write : Type :=
| UpdateRow (model : string) (id : Z)
| DeleteRow (model : string) (id : Z).

Inductive effect : Type :=
| Refused (status : Z) (message : string)
| Issued (w : Write).

Definition route_effect (ms : list Middleware) (handler : Req -> effect) (req : Req) : effect :=
  match run_chain ms req with
  | Next req' => handler req'
  | Respond status message => Refused status message
  end.

(** [!userBranchId || Number(existing.branchId) !== Number(userBranchId)],
    with [userBranchId = resolveBranchId(req)]. *)
Definition branch_denied (req : Req) (branchId : Z) : bool :=
  let userBranchId := resolveBranchId req Undefined in
  falsy_branch userBranchId
  || negb (num_strict_eq (Int branchId) (Number_branch userBranchId)).

(** [(req.user.role || '').toUpperCase() !== 'ADMIN'] *)
Definition not_admin (req : Req) : bool :=
  negb (String.eqb (toUpperCase (default "" (req_role req))) "ADMIN").

(** [PATCH /api/orders/status/:id]: the branch test applies to every
    role. *)
Definition order_status_handler (orders : gmap Z Z) (req : Req) : effect :=
  let failed := Refused 400 "Error updating order status" in
  match req_body req, req_user req with
  | Some _, Some _ =>
      match parseInt (Str (req_params_id req)) with
      | NaN => failed
      | Int i =>
          match orders !! i with
          | None => Refused 404 "Order not found"
          | Some branchId =>
              if branch_denied req branchId then
                Refused 403 "Branch access denied for order update"
              else Issued (UpdateRow "order" i)
          end
      end
  | _, _ => failed
  end.

Definition PATCH_orders_status (jwt : Jwt) (db : DB) (orders : gmap Z Z) : Req -> effect :=
  route_effect [ authenticateToken jwt db;
                 attachActiveBranch db;
                 requireRoles ["ADMIN"; "MANAGER"; "CHEF"] ]
               (order_status_handler orders).

(** [PATCH /api/inventory/:id] *)
Definition inventory_update_handler (items : gmap Z Z) (req : Req) : effect :=
  let failed := Refused 400 "Error updating inventory" in
  match req_body req, req_user req with
  | Some _, Some _ =>
      match parseInt (Str (req_params_id req)) with
      | NaN => failed
      | Int i =>
          match items !! i with
          | None => Refused 404 "Inventory item not found"
          | Some branchId =>
              if not_admin req && branch_denied req branchId then
                Refused 403 "Branch access denied for inventory update"
              else Issued (UpdateRow "inventoryItem" i)
          end
      end
  | _, _ => failed
  end.

Definition PATCH_inventory (jwt : Jwt) (db : DB) (items : gmap Z Z) : Req -> effect :=
  route_effect [ authenticateToken jwt db;
                 attachActiveBranch db;
                 requireRoles ["ADMIN"; "MANAGER"] ]
               (inventory_update_handler items).

(** [PATCH /api/reservations/status/:id] *)
Definition reservation_status_handler (reservations : gmap Z Z) (req : Req) : effect :=
  let failed := Refused 400 "Error updating reservation status" in
  match req_body req, req_user req with
  | Some _, Some _ =>
      match parseInt (Str (req_params_id req)) with
      | NaN => failed
      | Int i =>
          match reservations !! i with
          | None => Refused 404 "Reservation not found"
          | Some branchId =>
              if not_admin req && branch_denied req branchId then
                Refused 403 "Branch access denied for reservation update"
              else Issued (UpdateRow "reservation" i)
          end
      end
  | _, _ => failed
  end.

Definition PATCH_reservations_status (jwt : Jwt) (db : DB) (reservations : gmap Z Z)
    : Req -> effect :=
  route_effect [ authenticateToken jwt db;
                 blockChefFromNonOrders;
                 requireRoles ["ADMIN"; "MANAGER"; "STAFF"] ]
               (reservation_status_handler reservations).

(** [PATCH /api/feedback/approve/:id] *)
Definition feedback_approve_handler (feedback : gmap Z Z) (req : Req) : effect :=
  let failed := Refused 400 "Error approving feedback" in
  match parseInt (Str (req_params_id req)) with
  | NaN => failed
  | Int i =>
      match feedback !! i with
      | None => Refused 404 "Feedback not found"
      | Some branchId =>
          match req_user req with
          | None => failed
          | Some _ =>
              if not_admin req && branch_denied req branchId then
                Refused 403 "Branch access denied for feedback approval"
              else Issued (UpdateRow "feedback" i)
          end
      end
  end.

Definition PATCH_feedback_approve (jwt : Jwt) (db : DB) (feedback : gmap Z Z)
    : Req -> effect :=
  route_effect [ authenticateToken jwt db;
                 requireRoles ["ADMIN"; "MANAGER"; "STAFF"] ]
               (feedback_approve_handler feedback).

(** [DELETE /api/feedback/:id] *)
Definition feedback_delete_handler (feedback : gmap Z Z) (req : Req) : effect :=
  let failed := Refused 400 "Error deleting feedback" in
  match parseInt (Str (req_params_id req)) with
  | NaN => failed
  | Int i =>
      match feedback !! i with
      | None => Refused 404 "Feedback not found"
      | Some branchId =>
          match req_user req with
          | None => failed
          | Some _ =>
              if not_admin req && branch_denied req branchId then
                Refused 403 "Branch access denied for feedback delete"
              else Issued (DeleteRow "feedback" i)
          end
      end
  end.

Definition DELETE_feedback (jwt : Jwt) (db : DB) (feedback : gmap Z Z) : Req -> effect :=
  route_effect [ authenticateToken jwt db;
                 requireRoles ["ADMIN"; "MANAGER"; "STAFF"] ]
               (feedback_delete_handler feedback).

(** *** [GET /api/users/:id/active-branch]

    The answer is [{ activeBranchId, activeBranch }]; the model keeps
    the first field. The role test is [includes] on the stored role,
    with no change of case. *)

Inductive active_reply : Type :=
| ActiveRefused (status : Z) (message : string)
| ActiveIs (activeBranchId : option Z).

Definition GET_users_active_branch (jwt : Jwt) (db : DB) (req : Req) : active_reply :=
  match authenticateToken jwt db req with
  | Respond status message => ActiveRefused status message
  | Next req =>
      let failed := ActiveRefused 400 "Error fetching active branch" in
      match req_user req with
      | None => failed
      | Some user =>
          if negb (existsb (String.eqb (user_role user)) ["MANAGER"; "ADMIN"]) then
            ActiveRefused 403 "Unauthorized"
          else
            let userId := parseInt (Str (req_params_id req)) in
            if negb (num_strict_eq userId (Int (user_id user))) then
              ActiveRefused 403 "Cannot access other user active branch"
            else
              match userId with
              | Int i => ActiveIs (or_null (user_findUnique db i ≫= user_activeBranchId))
              | NaN => failed
              end
      end
  end.

End Server.

(** ** [backend/testRoutes.js] *)

Module TestRoutes.
Import JS Http Rbac Server.

(** [['MANAGER', 'ADMIN'].includes(req.user?.role)]; on [false] the
    helper has answered 403. *)
Definition requireManagerOrAdmin (req : Req) : bool :=
  match req_role req with
  | Some role => existsb (String.eqb role) ["MANAGER"; "ADMIN"]
  | None => false
  end.

(** The result of [resolveScopedBranchId]: [{ error }] or
    [{ branchId }]. *)
Inductive scope : Type :=
| ScopeError (error : string)
| ScopeBranch (branchId : Z).

(** Reading [req.user.role] throws when the request has no user. *)
Definition resolveScopedBranchId (req : Req) (paramBranchId : string) : completion scope :=
  match parseInt (Str paramBranchId) with
  | NaN => Normal (ScopeError "Invalid branch id")
  | Int requested =>
      match req_user req with
      | None => Throw
      | Some user =>
          if String.eqb (user_role user) "ADMIN" then Normal (ScopeBranch requested)
          else if String.eqb (user_role user) "MANAGER" then
            match user_branchId user with
            | Some b =>
                if negb (requested =? b) then
                  Normal (ScopeError "Managers can only access their own branch")
                else Normal (ScopeBranch b)
            | None => Normal (ScopeError "Managers can only access their own branch")
            end
          else Normal (ScopeError "Unauthorized role")
      end
  end.

(** [GET /api/test/branches/:branchId/prices].  The scope is computed
    outside the [try]: an exception there is left to Express, which
    answers 500. *)
Definition GET_test_prices (jwt : Jwt) (db : DB) (req : Req) : outcome :=
  match authenticateToken jwt db req with
  | Respond status message => Answer status message
  | Next req =>
      if negb (requireManagerOrAdmin req) then
        Answer 403 "Unauthorized (MANAGER/ADMIN only)"
      else
        match resolveScopedBranchId req (req_params_branchId req) with
        | Throw => Answer 500 "Internal Server Error"
        | Normal (ScopeError error) => Answer 403 error
        | Normal (ScopeBranch b) =>
            Rows (FindMany "branchPrice" (mkWhere (Some (Some (Int b))) None))
        end
  end.

(** [req.user.role === 'MANAGER' && existing.branchId !== req.user.branchId] *)
Definition foreign_to_manager (user : User) (branchId : Z) : bool :=
  String.eqb (user_role user) "MANAGER"
  && match user_branchId user with
     | Some b => negb (branchId =? b)
     | None => true
     end.

(** [PATCH /api/test/prices/:id], over the projection of the prices to
    their branch. *)
Definition PATCH_test_price (jwt : Jwt) (db : DB) (prices : gmap Z Z) (req : Req) : effect :=
  match authenticateToken jwt db req with
  | Respond status message => Refused status message
  | Next req =>
      if negb (requireManagerOrAdmin req) then
        Refused 403 "Unauthorized (MANAGER/ADMIN only)"
      else
        let failed := Refused 400 "Error updating test price" in
        match parseInt (Str (req_params_id req)) with
        | NaN => failed
        | Int i =>
            match prices !! i with
            | None => Refused 404 "Not found"
            | Some branchId =>
                match req_user req with
                | None => failed
                | Some user =>
                    if foreign_to_manager user branchId then
                      Refused 403 "Managers can only modify their own branch data"
                    else
                      match req_body req with
                      | None => failed
                      | Some _ => Issued (UpdateRow "branchPrice" i)
                      end
                end
            end
        end
  end.

End TestRoutes.

(** ** [hashPasswords.js] *)

Module HashPasswords.
Import JS Http Server.

(** [/^\$2[aby]\$/.test(password)] *)
Definition isHashed (password : string) : bool :=
  match password with
  | String "$" (String "2" (String c (String "$" _))) =>
      (Ascii.eqb c "a" || Ascii.eqb c "b" || Ascii.eqb c "y")%char
  | _ => false
  end.

(** What the loop does to one user. *)
Definition hash_row (hash : Hash) (r : UserRow) : UserRow :=
  if isHashed (row_password r) then r
  else mkRow (row_role r) (row_branchId r) (row_activeBranchId r) (hash (row_password r)).

(** [hashAllPasswords]: every user found by [findMany] is updated by
    its id, so each row is rewritten from itself. *)
Definition hashAllPasswords (hash : Hash) (db : DB) : DB :=
  mkDB (hash_row hash <$> users db) (branches db).

End HashPasswords.

(** ** Notions used to state the properties *)

Module Notions.
Import JS Http Rbac Server.

(** No space in [s]. *)
Fixpoint no_space (s : string) : bool :=
  match s with
  | EmptyString => true
  | String c s' => negb (Ascii.eqb c " ") && no_space s'
  end.

(** The request carries a token that verifies to the id of a stored
    user. *)
Definition authenticated (jwt : Jwt) (db : DB) (req : Req) : Prop :=
  exists token i,
    bearer_token (req_authorization req) = Some token
    /\ jwt token = Some i
    /\ is_Some (users db !! i).

(** Every persisted active branch is the id, other than 0, of a stored
    branch. *)
Definition active_branches_valid (db : DB) : Prop :=
  map_Forall
    (fun (_ : Z) (r : UserRow) =>
       match row_activeBranchId r with
       | Some b => b <> 0 /\ b ∈ branches db
       | None => True
       end)
    (users db).

(** The branch an ADMIN works in when the request names none: the
    persisted active branch, the home branch when there is none. *)
Definition admin_branch (u : User) : option Z :=
  match or_null (user_activeBranchId u) with
  | Some a => Some a
  | None => user_branchId u
  end.

(** The message of [blockChefFromNonOrders]. *)
Definition category_message : string := "CHEF role can only access Orders. Access denied.".

(** The row a write is about. *)
Definition written_id (w : Write) : Z :=
  match w with
  | UpdateRow _ i => i
  | DeleteRow _ i => i
  end.

(** The write [w] of the request [req] is on the row its path names,
    and for a caller who is not an ADMIN this row belongs to the home
    branch of the caller, which is not 0. *)
Definition writes_own_branch (jwt : Jwt) (db : DB) (table : gmap Z Z) (req : Req) (w : Write)
    : Prop :=
  exists caller b,
    authenticateToken jwt db req = Next (set_user req caller)
    /\ parseInt (Str (req_params_id req)) = Int (written_id w)
    /\ table !! written_id w = Some b
    /\ (normalizeRole (Some (user_role caller)) <> "ADMIN" ->
        user_branchId caller = Some b /\ b <> 0).

End Notions.

(** ** The priority rule of the resolver, in the words of the specification *)

Module Spec.
Import JS.

(** The first defined value among the requested, the active and the
    home branch, in this order; [None] when none is defined. *)
Definition first_defined (requested active home : option Z) : option Z :=
  match requested, active with
  | Some r, _ => Some r
  | None, Some a => Some a
  | None, None => home
  end.

(** The requested branch id [v] is absent ([undefined] or [null]), or
    is the id [z], a safe integer, sent as a number or as its decimal
    string. *)
Inductive requests : value -> option Z -> Prop :=
| requests_undefined : requests Undefined None
| requests_null : requests Null None
| requests_number (z : Z) :
    safe_integer z -> requests (Num (Int z)) (Some z)
| requests_decimal (z : Z) :
    safe_integer z -> requests (Str (num_to_string (Int z))) (Some z).

End Spec.

(** ** The actors and requests of the scenarios *)

Module Scenarios.
Import JS Http Rbac Server.

(** A request of the authenticated user [u], nothing else set. *)
Definition request_of (u : User) : Req :=
  mkReq None "" "" Undefined None (Some u) None.

Definition manager5 : User := mkUser 10 "MANAGER" (Some 5) None "".
Definition manager2 : User := mkUser 11 "MANAGER" (Some 2) None "".
Definition manager0 : User := mkUser 12 "MANAGER" (Some 0) None "".
Definition admin13 : User := mkUser 13 "ADMIN" (Some 1) (Some 3) "".
Definition chef2 : User := mkUser 14 "CHEF" (Some 2) None "".

(** The request of [admin13] once [attachActiveBranch] has run. *)
Definition admin13_attached : Req :=
  set_activeBranchId (request_of admin13) (Some 3).

Definition row_of (u : User) : UserRow :=
  mkRow (user_role u) (user_branchId u) (user_activeBranchId u) (user_password u).

(** The tables: every user has a home branch, and the home and active
    branches are branches of the table (a branch with id 0 included,
    the home of [manager0]). *)
Definition db : DB :=
  mkDB (list_to_map
          (map (fun u => (user_id u, row_of u))
               [manager5; manager2; manager0; admin13; chef2]))
       {[ 0; 1; 2; 3; 5; 7; 9 ]}.

(** Tokens are the decimal user ids. *)
Definition jwt : Jwt :=
  fun token =>
    match parseInt_string token with
    | Int z => Some z
    | NaN => None
    end.

(** A bearer request, before [authenticateToken]. *)
Definition bearer (token id branchId : string) (query : value) (body : option Body) : Req :=
  mkReq (Some ("Bearer " ++ token)) id branchId query body None None.

(** The CHEF of branch 2 asks for the inventory, or the staff, of
    branch 2. *)
Definition chef_branch2 : Req := bearer "14" "" "2" Undefined None.

Definition chef_branch2_attached : Req :=
  set_activeBranchId (set_user chef_branch2 chef2) None.



(** The ADMIN with id 13 sets their own active branch to 5; the MANAGER
    with id 10 tries the same on the record of the ADMIN. *)
Definition switch_to_5 : option Body := Some (mkBody (Num (Int 5)) Undefined Undefined).

Definition admin13_switch : Req := bearer "13" "13" "" Undefined switch_to_5.

Definition manager5_switch : Req := bearer "10" "13" "" Undefined switch_to_5.

(** The ADMIN with id 13 resets the password of the user with id 10. *)
Definition admin13_reset : Req :=
  bearer "13" "10" "" Undefined (Some (mkBody Undefined (Str "secret") Undefined)).

(** The orders, by id, with their branch. *)
Definition orders : gmap Z Z := <[100 := 5]> (<[101 := 3]> (<[102 := 1]> ∅)).

Definition any_body : option Body := Some (mkBody Undefined Undefined Undefined).

Definition hash : Hash := fun p => "$2b$10$" ++ p.

End Scenarios.

(** * Properties *)

Import JS Http Rbac Server.

(** ** [parseInt] on the decimal rendering of an integer *)

Section ParseDecimal.

(** Evaluates the character codes of the goal. *)
Ltac char_codes :=
  repeat match goal with
  | |- context [Z.of_nat (nat_of_ascii ?c)] =>
      let k := eval vm_compute in (Z.of_nat (nat_of_ascii c)) in
      change (Z.of_nat (nat_of_ascii c)) with k
  end.

(** Reads one decimal digit and restates the accumulator as [a]. *)
Ltac read_digit a :=
  simpl; unfold radix_digit; simpl;
  match goal with
  | |- parse_digits _ _ (Some ?b) = _ =>
      replace b with a by (char_codes; simpl; lia)
  end.

Lemma parse_digits_acc (d : uint) (p : positive) :
  parse_digits 10 (NilEmpty.string_of_uint d) (Some (Z.pos p))
  = Some (Z.pos (Pos.of_uint_acc d p)).
Proof.
  revert p. induction d; intros p; [reflexivity | ..];
    match goal with
    | |- _ = Some (Z.pos (Pos.of_uint_acc (_ d) p)) =>
        simpl Pos.of_uint_acc;
        match goal with
        | |- _ = Some (Z.pos (Pos.of_uint_acc d ?q)) =>
            read_digit (Z.pos q); apply IHd
        end
    end.
Qed.

Lemma parse_digits_zero (d : uint) :
  parse_digits 10 (NilEmpty.string_of_uint d) (Some 0)
  = Some (Z.of_N (Pos.of_uint d)).
Proof.
  induction d; [reflexivity | ..]; simpl Pos.of_uint.
  - read_digit 0. exact IHd.
  - read_digit 1. apply parse_digits_acc.
  - read_digit 2. apply parse_digits_acc.
  - read_digit 3. apply parse_digits_acc.
  - read_digit 4. apply parse_digits_acc.
  - read_digit 5. apply parse_digits_acc.
  - read_digit 6. apply parse_digits_acc.
  - read_digit 7. apply parse_digits_acc.
  - read_digit 8. apply parse_digits_acc.
  - read_digit 9. apply parse_digits_acc.
Qed.

Lemma parse_digits_uint (d : uint) :
  d <> Nil ->
  parse_digits 10 (NilEmpty.string_of_uint d) None = Some (Z.of_N (Pos.of_uint d)).
Proof.
  destruct d; intros Hd; [congruence | ..]; simpl Pos.of_uint.
  - read_digit 0. apply parse_digits_zero.
  - read_digit 1. apply parse_digits_acc.
  - read_digit 2. apply parse_digits_acc.
  - read_digit 3. apply parse_digits_acc.
  - read_digit 4. apply parse_digits_acc.
  - read_digit 5. apply parse_digits_acc.
  - read_digit 6. apply parse_digits_acc.
  - read_digit 7. apply parse_digits_acc.
  - read_digit 8. apply parse_digits_acc.
  - read_digit 9. apply parse_digits_acc.
Qed.

Lemma trim_start_uint (d : uint) :
  trim_start (NilEmpty.string_of_uint d) = NilEmpty.string_of_uint d.
Proof. destruct d; reflexivity. Qed.

Lemma strip_sign_uint (d : uint) :
  strip_sign (NilEmpty.string_of_uint d) = (1, NilEmpty.string_of_uint d).
Proof. destruct d; reflexivity. Qed.

Lemma strip_prefix_uint (d : uint) :
  strip_prefix (NilEmpty.string_of_uint d) = (10, NilEmpty.string_of_uint d).
Proof. destruct d as [| d | | | | | | | | |]; try reflexivity; destruct d; reflexivity. Qed.

Lemma parseInt_string_pos (p : positive) :
  parseInt_string (NilEmpty.string_of_uint (Pos.to_uint p)) = Int (Z.pos p).
Proof.
  unfold parseInt_string.
  rewrite trim_start_uint, strip_sign_uint, strip_prefix_uint.
  rewrite parse_digits_uint by apply Unsigned.to_uint_nonnil.
  rewrite Unsigned.of_to. reflexivity.
Qed.

Lemma parseInt_string_neg (p : positive) :
  parseInt_string (String "-" (NilEmpty.string_of_uint (Pos.to_uint p))) = Int (Z.neg p).
Proof.
  unfold parseInt_string.
  replace (strip_sign (trim_start (String "-" (NilEmpty.string_of_uint (Pos.to_uint p)))))
    with (-1, NilEmpty.string_of_uint (Pos.to_uint p)) by reflexivity.
  rewrite strip_prefix_uint.
  rewrite parse_digits_uint by apply Unsigned.to_uint_nonnil.
  rewrite Unsigned.of_to. reflexivity.
Qed.

Lemma string_of_uint_nonnil (d : uint) :
  d <> Nil -> NilZero.string_of_uint d = NilEmpty.string_of_uint d.
Proof. destruct d; intros Hd; congruence || reflexivity. Qed.

(** [parseInt(n)] is [n] for every integral number [n]. *)
Lemma parseInt_Int (z : Z) : parseInt (Num (Int z)) = Int z.
Proof.
  unfold parseInt, to_string, num_to_string. destruct z as [| p | p]; simpl.
  - reflexivity.
  - rewrite string_of_uint_nonnil by apply Unsigned.to_uint_nonnil.
    apply parseInt_string_pos.
  - rewrite string_of_uint_nonnil by apply Unsigned.to_uint_nonnil.
    apply parseInt_string_neg.
Qed.

(** [parseInt] of the decimal rendering of [z], as a string. *)
Lemma parseInt_decimal (z : Z) : parseInt (Str (num_to_string (Int z))) = Int z.
Proof. exact (parseInt_Int z). Qed.

(** A string that starts with a character that is neither white space,
    nor a sign, nor a decimal digit has no integer prefix. *)
Lemma parseInt_string_no_digit (c : ascii) (s : string) :
  is_white c = false ->
  c <> "-"%char -> c <> "+"%char ->
  radix_digit 10 c = None ->
  parseInt_string (String c s) = NaN.
Proof.
  intros Hwhite Hminus Hplus Hdigit. unfold parseInt_string.
  cbn [trim_start]. rewrite Hwhite.
  assert (Hsign : strip_sign (String c s) = (1, String c s)).
  { destruct c as [[] [] [] [] [] [] [] []]; try reflexivity; congruence. }
  assert (Hprefix : strip_prefix (String c s) = (10, String c s)).
  { destruct c as [[] [] [] [] [] [] [] []]; try reflexivity; discriminate Hdigit. }
  rewrite Hsign, Hprefix. cbn [parse_digits]. now rewrite Hdigit.
Qed.


(** The digits of [d] followed by anything: the digits are read and
    the rest goes on from their value. *)
Lemma parse_digits_acc_app (d : uint) (p : positive) (s : string) :
  parse_digits 10 (NilEmpty.string_of_uint d ++ s) (Some (Z.pos p))
  = parse_digits 10 s (Some (Z.pos (Pos.of_uint_acc d p))).
Proof.
  revert p. induction d; intros p; [reflexivity | ..];
    match goal with
    | |- _ = parse_digits _ _ (Some (Z.pos (Pos.of_uint_acc (_ d) p))) =>
        simpl Pos.of_uint_acc;
        match goal with
        | |- _ = parse_digits _ _ (Some (Z.pos (Pos.of_uint_acc d ?q))) =>
            read_digit (Z.pos q); apply IHd
        end
    end.
Qed.

Lemma parse_digits_nonzero_app (d : uint) (s : string) :
  Pos.of_uint d <> 0%N ->
  (parse_digits 10 (NilEmpty.string_of_uint d ++ s) (Some 0)
   = parse_digits 10 s (Some (Z.of_N (Pos.of_uint d))))
  /\ (parse_digits 10 (NilEmpty.string_of_uint d ++ s) None
      = parse_digits 10 s (Some (Z.of_N (Pos.of_uint d)))).
Proof.
  induction d; intros Hd; [now contradiction Hd | ..]; simpl Pos.of_uint in *.
  - split; read_digit 0; now apply IHd.
  - split; read_digit 1; apply parse_digits_acc_app.
  - split; read_digit 2; apply parse_digits_acc_app.
  - split; read_digit 3; apply parse_digits_acc_app.
  - split; read_digit 4; apply parse_digits_acc_app.
  - split; read_digit 5; apply parse_digits_acc_app.
  - split; read_digit 6; apply parse_digits_acc_app.
  - split; read_digit 7; apply parse_digits_acc_app.
  - split; read_digit 8; apply parse_digits_acc_app.
  - split; read_digit 9; apply parse_digits_acc_app.
Qed.

Lemma unsigned_prefix (d : uint) (c : ascii) (rest : string) :
  Pos.of_uint d <> 0%N ->
  radix_digit 10 c = None ->
  trim_start (NilEmpty.string_of_uint d ++ String c rest)
  = NilEmpty.string_of_uint d ++ String c rest
  /\ strip_sign (NilEmpty.string_of_uint d ++ String c rest)
     = (1, NilEmpty.string_of_uint d ++ String c rest)
  /\ strip_prefix (NilEmpty.string_of_uint d ++ String c rest)
     = (10, NilEmpty.string_of_uint d ++ String c rest).
Proof.
  intros Hd Hc.
  destruct d as [| d | | | | | | | | |]; try (repeat split; reflexivity).
  - now contradiction Hd.
  - destruct d; try (repeat split; reflexivity). now contradiction Hd.
Qed.

(** [parseInt] reads a positive integer in front of a character that is
    not a decimal digit, and ignores what follows. *)
Lemma parseInt_string_prefix (p : positive) (c : ascii) (rest : string) :
  radix_digit 10 c = None ->
  parseInt_string (num_to_string (Int (Z.pos p)) ++ String c rest) = Int (Z.pos p).
Proof.
  intros Hc. unfold num_to_string. simpl Z.to_int. cbn [NilZero.string_of_int].
  rewrite string_of_uint_nonnil by apply Unsigned.to_uint_nonnil.
  assert (Hd : Pos.of_uint (Pos.to_uint p) <> 0%N) by (rewrite Unsigned.of_to; discriminate).
  destruct (unsigned_prefix (Pos.to_uint p) c rest Hd Hc) as (Htrim & Hsign & Hprefix).
  unfold parseInt_string. rewrite Htrim, Hsign, Hprefix.
  destruct (parse_digits_nonzero_app (Pos.to_uint p) (String c rest) Hd) as [_ ->].
  cbn [parse_digits]. rewrite Hc. cbn [default]. now rewrite Unsigned.of_to.
Qed.

End ParseDecimal.

(** ** The branch resolver *)

Section Resolver.

Lemma parse_or_null_of_id (o : option Z) : parse_or_null (of_id o) = Int <$> o.
Proof.
  destruct o as [z |]; [| reflexivity].
  unfold parse_or_null; simpl. now rewrite parseInt_Int.
Qed.

(** C1. For a role other than ADMIN, whatever the requested branch id,
    [resolveBranchId] returns the home branch of the actor, [null] when
    there is none; neither the requested id nor the active branch on the
    request changes the result. *)
Theorem resolveBranchId_non_admin (req : Req) (candidate : value) :
  normalizeRole (req_role req) <> "ADMIN" ->
  resolveBranchId req candidate = Int <$> req_branchId req
  /\ (forall (a : option Z) (candidate' : value),
        resolveBranchId (set_activeBranchId req a) candidate'
        = resolveBranchId req candidate).
Proof.
  intros Hrole. apply String.eqb_neq in Hrole.
  assert (Hres : forall r c, req_user r = req_user req ->
                             resolveBranchId r c = Int <$> req_branchId req).
  { intros r c Hu. unfold resolveBranchId, normalizeRole, req_role, req_branchId in *.
    rewrite Hu, Hrole. simpl. apply parse_or_null_of_id. }
  split.
  - now apply Hres.
  - intros a c'. rewrite (Hres req candidate eq_refl). now apply Hres.
Qed.

Lemma resolveBranchId_non_admin_witness :
  resolveBranchId (Scenarios.request_of Scenarios.manager2) (Str "9") = Some (Int 2).
Proof.
  apply (resolveBranchId_non_admin (Scenarios.request_of Scenarios.manager2) (Str "9")).
  vm_compute. congruence.
Defined.




Lemma attachActiveBranch_persisted (db : DB) (req : Req) (u : User) (r : UserRow) :
  req_user req = Some u ->
  users db !! user_id u = Some r ->
  attachActiveBranch db req = Next (set_activeBranchId req (or_null (row_activeBranchId r))).
Proof.
  intros Hu Hr. unfold attachActiveBranch, user_findUnique. now rewrite Hu, Hr.
Qed.

Ltac safe_ids :=
  first
    [ unfold safe_integer; lia
    | let a := fresh in
      let H := fresh in
      intros a H; vm_compute in H;
      first [discriminate | injection H as <-; unfold safe_integer; lia] ].

Lemma resolveBranchId_admin_chain (req : Req) (v : value) (requested : option Z) :
  normalizeRole (req_role req) = "ADMIN" ->
  Spec.requests v requested ->
  resolveBranchId req v
  = Int <$> Spec.first_defined requested (req_activeBranchId req) (req_branchId req).
Proof.
  intros Hrole Hv. unfold resolveBranchId. fold (normalizeRole (req_role req)).
  rewrite Hrole. change (negb ("ADMIN" =? "ADMIN")%string) with false. cbv iota.
  destruct Hv; destruct (req_activeBranchId req) as [a |];
    destruct (req_branchId req) as [h |];
    cbv [nullish_or is_nullish of_id parse_or_null Spec.first_defined];
    rewrite ?parseInt_Int, ?parseInt_decimal; reflexivity.
Qed.

(** C3. For an ADMIN, when the requested branch id is an id (a safe
    integer, sent as a number or as its decimal string) or absent, and
    the active and home branches of the request are safe integers where
    present, [resolveBranchId] returns the first defined value among the
    requested id, the active branch of the request and the home branch,
    and [null] when there is none; [attachActiveBranch] puts the
    persisted active branch on the request; so the ADMIN with home
    branch 1 and active branch 3 who requests no branch resolves to 3. *)
Theorem resolveBranchId_admin_first_defined (req : Req) (v : value) (requested : option Z) :
  normalizeRole (req_role req) = "ADMIN" ->
  (forall a, req_activeBranchId req = Some a -> safe_integer a) ->
  (forall h, req_branchId req = Some h -> safe_integer h) ->
  Spec.requests v requested ->
  resolveBranchId req v
  = Int <$> Spec.first_defined requested (req_activeBranchId req) (req_branchId req)
  /\ (Spec.first_defined requested (req_activeBranchId req) (req_branchId req) = None ->
      resolveBranchId req v = None)
  /\ attachActiveBranch Scenarios.db (Scenarios.request_of Scenarios.admin13)
     = Next Scenarios.admin13_attached
  /\ resolveBranchId Scenarios.admin13_attached Undefined = Some (Int 3).
Proof.
  intros Hrole _ _ Hv.
  pose proof (resolveBranchId_admin_chain req v requested Hrole Hv) as Hres.
  split; [exact Hres |]. split.
  - intros Hnone. now rewrite Hres, Hnone.
  - split.
    + now rewrite (attachActiveBranch_persisted Scenarios.db _ Scenarios.admin13
                     (Scenarios.row_of Scenarios.admin13)).
    + reflexivity.
Qed.

Lemma resolveBranchId_admin_first_defined_witness :
  resolveBranchId Scenarios.admin13_attached Undefined = Some (Int 3)
  /\ resolveBranchId Scenarios.admin13_attached (Str "9") = Some (Int 9)
  /\ resolveBranchId (Scenarios.request_of Scenarios.admin13) (Num (Int 9)) = Some (Int 9)
  /\ resolveBranchId (Scenarios.request_of Scenarios.admin13) Null = Some (Int 1).
Proof.
  split; [| split; [| split]].
  - refine (proj1 (resolveBranchId_admin_first_defined Scenarios.admin13_attached Undefined None
                     eq_refl _ _ Spec.requests_undefined)); safe_ids.
  - refine (proj1 (resolveBranchId_admin_first_defined Scenarios.admin13_attached
                     (Str (num_to_string (Int 9))) (Some 9) eq_refl _ _
                     (Spec.requests_decimal 9 _))); safe_ids.
  - refine (proj1 (resolveBranchId_admin_first_defined (Scenarios.request_of Scenarios.admin13)
                     (Num (Int 9)) (Some 9) eq_refl _ _
                     (Spec.requests_number 9 _))); safe_ids.
  - refine (proj1 (resolveBranchId_admin_first_defined (Scenarios.request_of Scenarios.admin13)
                     Null None eq_refl _ _ Spec.requests_null)); safe_ids.
Defined.

End Resolver.

(** ** The branch access check *)

Section AccessCheck.

Lemma enforceBranchAccess_unfold (resolver : Resolver) (req : Req) (r : option num) :
  normalizeRole (req_role req) <> "" ->
  normalizeRole (req_role req) <> "ADMIN" ->
  resolve resolver req = Normal r ->
  enforceBranchAccess resolver req
  = if falsy_branch r then Respond 400 "Branch context required"
    else if falsy_id (req_branchId req) then
      Respond 403 "Branch access denied: no active branch"
    else if negb (num_strict_eq (Number_branch r) (Number_id (req_branchId req))) then
      Respond 403 (mismatch_message r (req_branchId req))
    else Next req.
Proof.
  intros Hrole Hadmin Hr. apply String.eqb_neq in Hrole, Hadmin.
  unfold enforceBranchAccess. now rewrite Hrole, Hadmin, Hr.
Qed.

(** C5. For an ADMIN the branch access check calls [next()] whatever the
    resolver is: the resource branch is not even computed. *)
Theorem enforceBranchAccess_admin (resolver : Resolver) (req : Req) :
  normalizeRole (req_role req) = "ADMIN" ->
  enforceBranchAccess resolver req = Next req.
Proof.
  intros Hrole. unfold enforceBranchAccess. now rewrite Hrole.
Qed.

Lemma enforceBranchAccess_admin_witness :
  enforceBranchAccess (Const (Some (Int 9))) Scenarios.admin13_attached
  = Next Scenarios.admin13_attached
  /\ enforceBranchAccess (Fun (fun _ => Throw)) Scenarios.admin13_attached
     = Next Scenarios.admin13_attached.
Proof.
  split; apply enforceBranchAccess_admin; reflexivity.
Defined.

(** C4 fails at branch id 0: the resource branch of the request is
    defined and equal to the branch of the MANAGER, and the check
    answers 400 instead of calling [next()]. *)
Lemma enforceBranchAccess_zero_not_allowed :
  req_branchId (Scenarios.request_of Scenarios.manager0) = Some 0
  /\ num_strict_eq (Int 0) (Number_id (req_branchId (Scenarios.request_of Scenarios.manager0)))
     = true
  /\ enforceBranchAccess (Const (Some (Int 0))) (Scenarios.request_of Scenarios.manager0)
     = Respond 400 "Branch context required"
  /\ enforceBranchAccess (Const (Some (Int 0))) (Scenarios.request_of Scenarios.manager0)
     <> Next (Scenarios.request_of Scenarios.manager0).
Proof. repeat split; try reflexivity. vm_compute. congruence. Qed.

(** C4, amended. For an actor with a role other than ADMIN, the branch
    access check calls [next()] if and only if the resource branch id is
    a number other than 0 and [NaN] and equals the branch id of the
    actor. A missing, zero or [NaN] resource branch is answered 400
    "Branch context required"; otherwise a missing or zero actor branch
    is answered 403; otherwise two different ids are answered 403 with
    the mismatch message. The MANAGER of branch 5 on a resource of
    branch 7 is answered 403. *)
Theorem enforceBranchAccess_non_admin (resolver : Resolver) (req : Req) (r : option num) :
  normalizeRole (req_role req) <> "" ->
  normalizeRole (req_role req) <> "ADMIN" ->
  resolve resolver req = Normal r ->
  (enforceBranchAccess resolver req = Next req
   <-> exists z : Z, z <> 0 /\ r = Some (Int z) /\ req_branchId req = Some z)
  /\ (falsy_branch r = true ->
      enforceBranchAccess resolver req = Respond 400 "Branch context required")
  /\ (falsy_branch r = false -> falsy_id (req_branchId req) = true ->
      enforceBranchAccess resolver req = Respond 403 "Branch access denied: no active branch")
  /\ (forall x y : Z, r = Some (Int x) -> req_branchId req = Some y ->
        x <> 0 -> y <> 0 -> x <> y ->
        enforceBranchAccess resolver req = Respond 403 (mismatch_message r (Some y)))
  /\ enforceBranchAccess (Const (Some (Int 7))) (Scenarios.request_of Scenarios.manager5)
     = Respond 403 "Branch access denied: resource branch 7 does not match active branch 5".
Proof.
  intros Hrole Hadmin Hr.
  rewrite (enforceBranchAccess_unfold resolver req r Hrole Hadmin Hr).
  repeat split.
  - destruct r as [[| x] |]; simpl; try discriminate.
    destruct (Z.eqb_spec x 0); simpl; try discriminate.
    destruct (req_branchId req) as [y |]; simpl; try discriminate.
    destruct (Z.eqb_spec y 0); simpl; try discriminate.
    destruct (Z.eqb_spec x y); simpl; try discriminate.
    intros _. exists x. subst. auto.
  - intros (z & Hz & -> & ->). simpl.
    destruct (Z.eqb_spec z 0); [contradiction |]. simpl.
    now rewrite Z.eqb_refl.
  - now intros ->.
  - now intros -> ->.
  - intros x y -> -> Hx Hy Hxy. simpl.
    destruct (Z.eqb_spec x 0); [contradiction |].
    destruct (Z.eqb_spec y 0); [contradiction |].
    destruct (Z.eqb_spec x y); [contradiction |]. reflexivity.
Qed.

Lemma enforceBranchAccess_non_admin_witness :
  (enforceBranchAccess (Const (Some (Int 5))) (Scenarios.request_of Scenarios.manager5)
   = Next (Scenarios.request_of Scenarios.manager5)
   <-> exists z : Z, z <> 0 /\ Some (Int 5) = Some (Int z)
                     /\ req_branchId (Scenarios.request_of Scenarios.manager5) = Some z).
Proof.
  apply (enforceBranchAccess_non_admin (Const (Some (Int 5)))
           (Scenarios.request_of Scenarios.manager5) (Some (Int 5)));
    [vm_compute; congruence | vm_compute; congruence | reflexivity].
Defined.

(** C10. For an actor with a role other than ADMIN, a resource branch
    id that is 0 or [NaN] is answered 400 "Branch context required"
    without being compared, and an actor whose own branch id is 0 is
    never let through, also when the resource branch id is 0 too. *)
Theorem enforceBranchAccess_zero_is_absent (resolver : Resolver) (req : Req) (r : option num) :
  normalizeRole (req_role req) <> "" ->
  normalizeRole (req_role req) <> "ADMIN" ->
  resolve resolver req = Normal r ->
  (r = Some (Int 0) \/ r = Some NaN ->
   enforceBranchAccess resolver req = Respond 400 "Branch context required")
  /\ (req_branchId req = Some 0 ->
      exists status message,
        enforceBranchAccess resolver req = Respond status message
        /\ (status = 400 \/ status = 403)).
Proof.
  intros Hrole Hadmin Hr.
  rewrite (enforceBranchAccess_unfold resolver req r Hrole Hadmin Hr).
  split.
  - now intros [-> | ->].
  - intros ->. destruct (falsy_branch r); simpl; eauto.
Qed.

Lemma enforceBranchAccess_zero_is_absent_witness :
  enforceBranchAccess (Const (Some (Int 0))) (Scenarios.request_of Scenarios.manager0)
  = Respond 400 "Branch context required".
Proof.
  apply (enforceBranchAccess_zero_is_absent (Const (Some (Int 0)))
           (Scenarios.request_of Scenarios.manager0) (Some (Int 0)));
    [vm_compute; congruence | vm_compute; congruence | reflexivity | left; reflexivity].
Defined.

End AccessCheck.

(** ** Routes: the order of the guards *)

Section Chains.

Lemma run_chain_app (pre post : list Middleware) (req : Req) :
  run_chain (pre ++ post) req
  = match run_chain pre req with
    | Next req' => run_chain post req'
    | Respond status message => Respond status message
    end.
Proof.
  revert req. induction pre as [| m pre IH]; intros req; simpl; [reflexivity |].
  destruct (m req); [apply IH | reflexivity].
Qed.

(** The first middleware that answers ends the chain with its answer. *)
Lemma run_chain_first_failure (pre post : list Middleware) (m : Middleware)
    (req req' : Req) (status : Z) (message : string) :
  run_chain pre req = Next req' ->
  m req' = Respond status message ->
  run_chain (pre ++ m :: post) req = Respond status message.
Proof.
  intros Hpre Hm. rewrite run_chain_app, Hpre. simpl. now rewrite Hm.
Qed.

Lemma blockChefFromNonOrders_next (req req' : Req) :
  blockChefFromNonOrders req = Next req' ->
  req' = req /\ normalizeRole (req_role req) <> "CHEF".
Proof.
  unfold blockChefFromNonOrders.
  destruct (String.eqb_spec (normalizeRole (req_role req)) "CHEF"); [discriminate |].
  intros [= <-]. auto.
Qed.

Lemma requireRoles_next (allowedRoles : list string) (req req' : Req) :
  requireRoles allowedRoles req = Next req' ->
  req' = req
  /\ normalizeRole (req_role req) <> ""
  /\ In (normalizeRole (req_role req)) (map (fun r => normalizeRole (Some r)) allowedRoles).
Proof.
  unfold requireRoles.
  destruct (String.eqb_spec (normalizeRole (req_role req)) ""); [discriminate |].
  destruct (existsb _ _) eqn:Hex; simpl; [| discriminate].
  intros [= <-]. repeat split; [assumption |].
  apply existsb_exists in Hex as (x & Hin & Heq).
  apply String.eqb_eq in Heq. now subst.
Qed.

Lemma requireRoles_respond (allowedRoles : list string) (req : Req)
    (status : Z) (message : string) :
  requireRoles allowedRoles req = Respond status message ->
  status = 401 \/ status = 403.
Proof.
  unfold requireRoles.
  destruct (String.eqb _ ""); [intros [= <- _]; auto |].
  destruct (negb _); [intros [= <- _]; auto | discriminate].
Qed.

Lemma authenticateToken_next (jwt : Jwt) (db : DB) (req req' : Req) :
  authenticateToken jwt db req = Next req' ->
  exists user, req' = set_user req user
               /\ user_findUnique db (user_id user) = Some user.
Proof.
  unfold authenticateToken.
  destruct (bearer_token _); [| discriminate].
  destruct (jwt _) as [i |]; [| discriminate].
  destruct (user_findUnique db i) as [u |] eqn:Hu; [| discriminate].
  intros [= <-]. exists u. split; [reflexivity |].
  unfold user_findUnique in *. destruct (users db !! i) as [r |] eqn:Hr; [| discriminate].
  simpl in Hu. injection Hu as <-. simpl. now rewrite Hr.
Qed.

Lemma GET_inventory_after_attach (jwt : Jwt) (db : DB) (req req1 : Req) :
  run_chain [authenticateToken jwt db; attachActiveBranch db] req = Next req1 ->
  GET_inventory jwt db req
  = route [ blockChefFromNonOrders;
            requireRoles ["ADMIN"; "MANAGER"; "STAFF"];
            enforceBranchAccess inventory_resolver ] inventory_handler req1.
Proof.
  intros H. unfold GET_inventory, route.
  change (inventory_guards jwt db)
    with ([authenticateToken jwt db; attachActiveBranch db]
          ++ [ blockChefFromNonOrders;
               requireRoles ["ADMIN"; "MANAGER"; "STAFF"];
               enforceBranchAccess inventory_resolver ])%list.
  now rewrite run_chain_app, H.
Qed.

(** The order claimed by C8 fails on [GET /api/inventory/:branchId]:
    for the CHEF of branch 2 the role check and the category check both
    answer, and the route answers with the message of the category
    check, not with the one of the role check. *)
Lemma inventory_chef_gets_category_answer :
  run_chain [authenticateToken Scenarios.jwt Scenarios.db; attachActiveBranch Scenarios.db]
    Scenarios.chef_branch2 = Next Scenarios.chef_branch2_attached
  /\ requireRoles ["ADMIN"; "MANAGER"; "STAFF"] Scenarios.chef_branch2_attached
     = Respond 403 "Access denied: role CHEF requires ADMIN, MANAGER, STAFF"
  /\ blockChefFromNonOrders Scenarios.chef_branch2_attached
     = Respond 403 "CHEF role can only access Orders. Access denied."
  /\ GET_inventory Scenarios.jwt Scenarios.db Scenarios.chef_branch2
     = Answer 403 "CHEF role can only access Orders. Access denied."
  /\ GET_inventory Scenarios.jwt Scenarios.db Scenarios.chef_branch2
     <> Answer 403 "Access denied: role CHEF requires ADMIN, MANAGER, STAFF".
Proof.
  assert (H : run_chain [authenticateToken Scenarios.jwt Scenarios.db;
                         attachActiveBranch Scenarios.db] Scenarios.chef_branch2
              = Next Scenarios.chef_branch2_attached) by (vm_compute; reflexivity).
  split; [exact H |].
  rewrite (GET_inventory_after_attach _ _ _ _ H).
  repeat split; try reflexivity. vm_compute. congruence.
Qed.

Lemma category_chain (jwt : Jwt) (db : DB) (attach : list Middleware) (roles : list string)
    (branch : list Middleware) (req req1 : Req) :
  run_chain (authenticateToken jwt db :: attach) req = Next req1 ->
  (forall status message,
      blockChefFromNonOrders req1 = Respond status message ->
      run_chain ((authenticateToken jwt db :: attach)
                 ++ [blockChefFromNonOrders; requireRoles roles] ++ branch)%list req
      = Respond status message)
  /\ (forall status message,
        blockChefFromNonOrders req1 = Next req1 ->
        requireRoles roles req1 = Respond status message ->
        run_chain ((authenticateToken jwt db :: attach)
                   ++ [blockChefFromNonOrders; requireRoles roles] ++ branch)%list req
        = Respond status message)
  /\ (blockChefFromNonOrders req1 = Next req1 ->
      requireRoles roles req1 = Next req1 ->
      run_chain ((authenticateToken jwt db :: attach)
                 ++ [blockChefFromNonOrders; requireRoles roles] ++ branch)%list req
      = run_chain branch req1).
Proof.
  intros H. rewrite run_chain_app, H. cbn [app run_chain].
  split; [| split].
  - now intros status message ->.
  - now intros status message -> ->.
  - now intros -> ->.
Qed.

Lemma category_chain_chef (roles : list string) (req1 : Req) :
  existsb (String.eqb "CHEF") (map (fun r => normalizeRole (Some r)) roles) = false ->
  normalizeRole (req_role req1) = "CHEF" ->
  blockChefFromNonOrders req1 = Respond 403 Notions.category_message
  /\ exists message, requireRoles roles req1 = Respond 403 message.
Proof.
  intros Hroles Hchef. unfold blockChefFromNonOrders, requireRoles.
  rewrite Hchef, Hroles. split; [reflexivity | eexists; reflexivity].
Qed.

Ltac chain_shape Hshape att rl br :=
  exists att, rl, br;
  split; [reflexivity |];
  split; [first [now left | now right] |];
  split; [first [now left | right; eauto] |];
  exact (Hshape att rl br eq_refl).

(** C8, amended. In every route the first guard that answers ends the
    request with its answer. Every route with a category check lists its
    guards in the order: authentication, active branch (where the route
    attaches it), category check, role check, branch check (where the
    route has one; it resolves the branch itself). So the answer of the
    category check comes before the one of the role check, and the one
    of the role check before the one of the branch check; when the
    category check and the role check both fail, which is the case of
    every CHEF on these routes, the answer is the one of the category
    check. *)
Theorem category_check_before_role_check (jwt : Jwt) (db : DB) (ms : list Middleware)
    (req : Req) :
  In ms (category_checked_guards jwt db) ->
  exists (attach : list Middleware) (roles : list string) (branch : list Middleware),
    ms = ((authenticateToken jwt db :: attach)
          ++ [blockChefFromNonOrders; requireRoles roles] ++ branch)%list
    /\ (attach = [] \/ attach = [attachActiveBranch db])
    /\ (branch = [] \/ exists resolver, branch = [enforceBranchAccess resolver])
    /\ (forall status message,
          authenticateToken jwt db req = Respond status message ->
          run_chain ms req = Respond status message)
    /\ (forall req1,
          run_chain (authenticateToken jwt db :: attach) req = Next req1 ->
          (forall status message,
              blockChefFromNonOrders req1 = Respond status message ->
              run_chain ms req = Respond status message)
          /\ (forall status message,
                blockChefFromNonOrders req1 = Next req1 ->
                requireRoles roles req1 = Respond status message ->
                run_chain ms req = Respond status message)
          /\ (blockChefFromNonOrders req1 = Next req1 ->
              requireRoles roles req1 = Next req1 ->
              run_chain ms req = run_chain branch req1)
          /\ (normalizeRole (req_role req1) = "CHEF" ->
              (exists message, requireRoles roles req1 = Respond 403 message)
              /\ run_chain ms req = Respond 403 Notions.category_message))
    /\ (forall (pre post : list Middleware) (m : Middleware) (handler : Req -> outcome)
               (r r' : Req) (status : Z) (message : string),
          run_chain pre r = Next r' ->
          m r' = Respond status message ->
          route (pre ++ m :: post)%list handler r = Answer status message).
Proof.
  intros Hin.
  assert (Hshape :
    forall attach roles branch,
      existsb (String.eqb "CHEF") (map (fun r => normalizeRole (Some r)) roles) = false ->
      (forall status message,
          authenticateToken jwt db req = Respond status message ->
          run_chain ((authenticateToken jwt db :: attach)
                     ++ [blockChefFromNonOrders; requireRoles roles] ++ branch)%list req
          = Respond status message)
      /\ (forall req1,
            run_chain (authenticateToken jwt db :: attach) req = Next req1 ->
            (forall status message,
                blockChefFromNonOrders req1 = Respond status message ->
                run_chain ((authenticateToken jwt db :: attach)
                           ++ [blockChefFromNonOrders; requireRoles roles] ++ branch)%list req
                = Respond status message)
            /\ (forall status message,
                  blockChefFromNonOrders req1 = Next req1 ->
                  requireRoles roles req1 = Respond status message ->
                  run_chain ((authenticateToken jwt db :: attach)
                             ++ [blockChefFromNonOrders; requireRoles roles] ++ branch)%list req
                  = Respond status message)
            /\ (blockChefFromNonOrders req1 = Next req1 ->
                requireRoles roles req1 = Next req1 ->
                run_chain ((authenticateToken jwt db :: attach)
                           ++ [blockChefFromNonOrders; requireRoles roles] ++ branch)%list req
                = run_chain branch req1)
            /\ (normalizeRole (req_role req1) = "CHEF" ->
                (exists message, requireRoles roles req1 = Respond 403 message)
                /\ run_chain ((authenticateToken jwt db :: attach)
                              ++ [blockChefFromNonOrders; requireRoles roles] ++ branch)%list req
                   = Respond 403 Notions.category_message))
      /\ (forall (pre post : list Middleware) (m : Middleware) (handler : Req -> outcome)
                 (r r' : Req) (status : Z) (message : string),
            run_chain pre r = Next r' ->
            m r' = Respond status message ->
            route (pre ++ m :: post)%list handler r = Answer status message)).
  { intros attach roles branch Hroles. split; [| split].
    - intros status message Hauth. cbn [app run_chain]. now rewrite Hauth.
    - intros req1 H.
      destruct (category_chain jwt db attach roles branch req req1 H) as (H1 & H2 & H3).
      split; [exact H1 |]. split; [exact H2 |]. split; [exact H3 |].
      intros Hchef. destruct (category_chain_chef roles req1 Hroles Hchef) as [Hblock Hrole].
      split; [exact Hrole | exact (H1 _ _ Hblock)].
    - intros pre post m handler r r' status message Hpre Hm. unfold route.
      now rewrite (run_chain_first_failure pre post m r r' status message Hpre Hm). }
  cbn [category_checked_guards In] in Hin.
  destruct Hin as [<- | [<- | [<- | [<- | [<- | [<- | [<- | []]]]]]]].
  - chain_shape Hshape [attachActiveBranch db] ["ADMIN"; "MANAGER"; "STAFF"]
      [enforceBranchAccess inventory_resolver].
  - chain_shape Hshape [attachActiveBranch db] ["ADMIN"; "MANAGER"; "STAFF"; "CUSTOMER"]
      [enforceBranchAccess body_resolver].
  - chain_shape Hshape [attachActiveBranch db] ["ADMIN"; "MANAGER"; "STAFF"; "CUSTOMER"]
      [enforceBranchAccess reservations_resolver].
  - chain_shape Hshape [attachActiveBranch db] ["ADMIN"; "MANAGER"; "STAFF"; "CUSTOMER"]
      [enforceBranchAccess inventory_resolver].
  - chain_shape Hshape (@nil Middleware) ["ADMIN"; "MANAGER"; "STAFF"] (@nil Middleware).
  - chain_shape Hshape [attachActiveBranch db] ["ADMIN"; "MANAGER"; "STAFF"; "CUSTOMER"]
      [enforceBranchAccess body_resolver].
  - chain_shape Hshape [attachActiveBranch db] ["ADMIN"; "MANAGER"; "STAFF"; "CUSTOMER"]
      [enforceBranchAccess inventory_resolver].
Qed.

Lemma category_check_before_role_check_witness :
  exists (attach : list Middleware) (roles : list string) (branch : list Middleware),
    reservation_status_guards Scenarios.jwt Scenarios.db
    = ((authenticateToken Scenarios.jwt Scenarios.db :: attach)
       ++ [blockChefFromNonOrders; requireRoles roles] ++ branch)%list
    /\ (forall req1,
          run_chain (authenticateToken Scenarios.jwt Scenarios.db :: attach)
            Scenarios.chef_branch2 = Next req1 ->
          normalizeRole (req_role req1) = "CHEF" ->
          (exists message, requireRoles roles req1 = Respond 403 message)
          /\ run_chain (reservation_status_guards Scenarios.jwt Scenarios.db)
               Scenarios.chef_branch2
             = Respond 403 Notions.category_message).
Proof.
  destruct (category_check_before_role_check Scenarios.jwt Scenarios.db
              (reservation_status_guards Scenarios.jwt Scenarios.db) Scenarios.chef_branch2)
    as (attach & roles & branch & Hshape & _ & _ & _ & Horder & _).
  - cbn [category_checked_guards In]. do 4 right. left. reflexivity.
  - exists attach, roles, branch. split; [exact Hshape |].
    intros req1 H Hchef. now apply (Horder req1 H).
Defined.

(** C7, on the staff list. [GET /api/admin/staff/:branchId] has no
    category check: the CHEF of branch 2 who asks for the staff of
    branch 2 is answered by the role check, with its message and not
    with the one of the category check that the inventory route gives
    to the same request. *)
Theorem staff_list_chef_gets_role_answer :
  GET_admin_staff Scenarios.jwt Scenarios.db Scenarios.chef_branch2
  = Answer 403 "Access denied: role CHEF requires ADMIN, MANAGER"
  /\ GET_admin_staff Scenarios.jwt Scenarios.db Scenarios.chef_branch2
     <> Answer 403 "CHEF role can only access Orders. Access denied."
  /\ GET_inventory Scenarios.jwt Scenarios.db Scenarios.chef_branch2
     = Answer 403 "CHEF role can only access Orders. Access denied.".
Proof.
  repeat split; try (vm_compute; reflexivity). vm_compute. congruence.
Qed.

End Chains.

(** ** No branch context *)

Section BranchRequired.

Lemma GET_reservations_after_attach (jwt : Jwt) (db : DB) (req req1 : Req) :
  run_chain [authenticateToken jwt db; attachActiveBranch db] req = Next req1 ->
  GET_reservations jwt db req
  = route [ blockChefFromNonOrders;
            requireRoles ["ADMIN"; "MANAGER"; "STAFF"; "CUSTOMER"];
            enforceBranchAccess reservations_resolver ] reservations_handler req1.
Proof.
  intros H. unfold GET_reservations, route.
  change (reservations_guards jwt db)
    with ([authenticateToken jwt db; attachActiveBranch db]
          ++ [ blockChefFromNonOrders;
               requireRoles ["ADMIN"; "MANAGER"; "STAFF"; "CUSTOMER"];
               enforceBranchAccess reservations_resolver ])%list.
  now rewrite run_chain_app, H.
Qed.




End BranchRequired.

(** ** The persisted active branch *)

Section ActiveBranch.

Lemma num_strict_eq_Int (a : num) (z : Z) :
  num_strict_eq a (Int z) = true <-> a = Int z.
Proof.
  destruct a as [| x]; simpl; [split; discriminate |].
  rewrite Z.eqb_eq. split; congruence.
Qed.

Lemma user_update_password_active (db db' : DB) (i : Z) (p : string) (j : Z) :
  user_update_password db i p = Some db' ->
  activeBranchId_of db' j = activeBranchId_of db j.
Proof.
  unfold user_update_password, activeBranchId_of.
  destruct (users db !! i) as [r |] eqn:Hr; [| discriminate].
  intros [= <-]. simpl. destruct (decide (i = j)) as [<- | Hne].
  - now rewrite lookup_insert_eq, Hr.
  - now rewrite lookup_insert_ne.
Qed.

Lemma user_update_activeBranchId_other (db db' : DB) (i b j : Z) :
  user_update_activeBranchId db i b = Some db' ->
  i <> j ->
  users db' !! j = users db !! j.
Proof.
  unfold user_update_activeBranchId.
  destruct (users db !! i) as [r |]; [| discriminate].
  intros [= <-] Hne. simpl. now rewrite lookup_insert_ne.
Qed.

Lemma reset_password_active (hash : Hash) (db : DB) (userId : num) (p : string) (j : Z) :
  activeBranchId_of (snd (reset_password hash db userId p)) j = activeBranchId_of db j.
Proof.
  unfold reset_password. destruct userId as [| i]; [reflexivity |].
  destruct (user_findUnique db i); [| reflexivity].
  destruct (user_update_password db i (hash p)) as [db' |] eqn:Hup; [| reflexivity].
  simpl. exact (user_update_password_active db db' i (hash p) j Hup).
Qed.

Lemma staff_reset_handler_active (hash : Hash) (db : DB) (req : Req) (j : Z) :
  activeBranchId_of (snd (staff_reset_handler hash db req)) j = activeBranchId_of db j.
Proof.
  unfold staff_reset_handler. destruct (req_body req) as [body |]; [| reflexivity].
  destruct (checked_password _) as [[p |] |]; [| | reflexivity].
  - apply reset_password_active.
  - destruct (parseInt _) as [| i]; [reflexivity |].
    destruct (user_findUnique db i); reflexivity.
Qed.

Lemma user_reset_handler_active (hash : Hash) (db : DB) (req : Req) (j : Z) :
  activeBranchId_of (snd (user_reset_handler hash db req)) j = activeBranchId_of db j.
Proof.
  unfold user_reset_handler. destruct (req_body req) as [body |]; [| reflexivity].
  destruct (checked_password _) as [p |]; [| reflexivity].
  destruct (parseInt _) as [| i] eqn:Hid; [reflexivity |].
  destruct p as [p |]; [apply reset_password_active |].
  destruct (user_findUnique db i); reflexivity.
Qed.

Lemma route_db_frame (ms : list Middleware) (handler : DB -> Req -> outcome * DB)
    (db : DB) (req : Req) (j : Z) :
  (forall r, activeBranchId_of (snd (handler db r)) j = activeBranchId_of db j) ->
  activeBranchId_of (snd (route_db ms handler db req)) j = activeBranchId_of db j.
Proof.
  intros H. unfold route_db. destruct (run_chain ms req); [apply H | reflexivity].
Qed.

(** What a change of the tables by the active-branch handler implies. *)
Lemma active_branch_handler_changes (db : DB) (req : Req) (j : Z) :
  users (snd (active_branch_handler db req)) !! j <> users db !! j ->
  exists caller, req_user req = Some caller
                 /\ user_id caller = j
                 /\ parseInt (Str (req_params_id req)) = Int j.
Proof.
  unfold active_branch_handler.
  destruct (req_user req) as [caller |]; [| now intros []].
  destruct (num_strict_eq _ _) eqn:Heq; simpl; [| now intros []].
  apply num_strict_eq_Int in Heq.
  destruct (req_body req) as [body |]; [| now intros []].
  destruct (truthy _); simpl; [| now intros []].
  destruct (body_branchId body) as [| | | [| b] |]; try (now intros []).
  rewrite Heq.
  destruct (branch_exists db b); simpl; [| now intros []].
  destruct (user_update_activeBranchId db (user_id caller) b) as [db' |] eqn:Hup;
    [| now intros []].
  simpl. intros Hne. exists caller. split; [reflexivity |].
  destruct (decide (user_id caller = j)) as [<- | Hother]; [auto |].
  exfalso. apply Hne. exact (user_update_activeBranchId_other db db' _ b j Hup Hother).
Qed.

Lemma activeBranchId_of_changes (db db' : DB) (j : Z) :
  activeBranchId_of db' j <> activeBranchId_of db j ->
  users db' !! j <> users db !! j.
Proof. unfold activeBranchId_of. intros H Heq. apply H. now rewrite Heq. Qed.

(** C9. Among the routes that update the [User] table, only the
    active-branch update changes a persisted [activeBranchId], and only
    that of the caller, who is an ADMIN and names their own id in the
    path. A caller who is not an ADMIN, or who names another id, is
    answered 401 or 403 and the tables stay as they were. *)
Theorem activeBranchId_only_by_own_update (op : UserUpdate) (jwt : Jwt) (hash : Hash)
    (db : DB) (req : Req) :
  (forall j : Z,
      activeBranchId_of (snd (user_update_route op jwt hash db req)) j
      <> activeBranchId_of db j ->
      op = ActiveBranchUpdate
      /\ exists caller,
           authenticateToken jwt db req = Next (set_user req caller)
           /\ normalizeRole (Some (user_role caller)) = "ADMIN"
           /\ user_id caller = j
           /\ parseInt (Str (req_params_id req)) = Int j)
  /\ (forall caller,
        authenticateToken jwt db req = Next (set_user req caller) ->
        normalizeRole (Some (user_role caller)) <> "ADMIN"
        \/ parseInt (Str (req_params_id req)) <> Int (user_id caller) ->
        snd (PATCH_users_active_branch jwt db req) = db
        /\ exists status message,
             fst (PATCH_users_active_branch jwt db req) = Answer status message
             /\ (status = 401 \/ status = 403)).
Proof.
  split.
  - intros j Hne. destruct op; simpl in Hne.
    + split; [reflexivity |].
      unfold PATCH_users_active_branch, route_db in Hne. cbn [run_chain] in Hne.
      destruct (authenticateToken jwt db req) as [req1 | s m] eqn:Hauth;
        [| now contradiction Hne].
      destruct (authenticateToken_next jwt db req req1 Hauth) as (caller & -> & _).
      destruct (requireRoles ["ADMIN"] (set_user req caller)) as [req2 | s m] eqn:Hroles;
        [| now contradiction Hne].
      apply requireRoles_next in Hroles as (-> & _ & Hin).
      apply activeBranchId_of_changes, active_branch_handler_changes in Hne
        as (caller' & Hcaller & Hid & Hparam).
      simpl in Hcaller. injection Hcaller as <-.
      exists caller. repeat split; try assumption.
      destruct Hin as [Hin | []]. symmetry. exact Hin.
    + exfalso. apply Hne. unfold PATCH_admin_staff_reset_password.
      apply route_db_frame. intros r. apply staff_reset_handler_active.
    + exfalso. apply Hne. unfold POST_admin_users_reset_password.
      apply route_db_frame. intros r. apply user_reset_handler_active.
  - intros caller Hauth Hbad.
    unfold PATCH_users_active_branch, route_db. cbn [run_chain]. rewrite Hauth.
    destruct (requireRoles ["ADMIN"] (set_user req caller)) as [req2 | s m] eqn:Hroles.
    2: { simpl. apply requireRoles_respond in Hroles. eauto 6. }
    apply requireRoles_next in Hroles as (-> & _ & Hin).
    destruct Hin as [Hin | []].
    assert (Hadm : normalizeRole (Some (user_role caller)) = "ADMIN") by (symmetry; exact Hin).
    destruct Hbad as [Hbad | Hbad]; [contradiction |].
    unfold active_branch_handler. simpl req_user. cbv iota.
    destruct (num_strict_eq _ _) eqn:Heq; simpl; [| eauto 6].
    apply num_strict_eq_Int in Heq. contradiction.
Qed.

Lemma activeBranchId_only_by_own_update_witness :
  (activeBranchId_of
     (snd (user_update_route ActiveBranchUpdate Scenarios.jwt Scenarios.hash
             Scenarios.db Scenarios.admin13_switch)) 13 = Some 5
   /\ exists caller,
        authenticateToken Scenarios.jwt Scenarios.db Scenarios.admin13_switch
        = Next (set_user Scenarios.admin13_switch caller)
        /\ normalizeRole (Some (user_role caller)) = "ADMIN"
        /\ user_id caller = 13
        /\ parseInt (Str (req_params_id Scenarios.admin13_switch)) = Int 13)
  /\ snd (PATCH_users_active_branch Scenarios.jwt Scenarios.db Scenarios.manager5_switch)
     = Scenarios.db.
Proof.
  split; [split |].
  - vm_compute. reflexivity.
  - apply (activeBranchId_only_by_own_update ActiveBranchUpdate Scenarios.jwt Scenarios.hash
             Scenarios.db Scenarios.admin13_switch).
    vm_compute. congruence.
  - apply (activeBranchId_only_by_own_update ActiveBranchUpdate Scenarios.jwt Scenarios.hash
             Scenarios.db Scenarios.manager5_switch) with (caller := Scenarios.manager5).
    + vm_compute. reflexivity.
    + left. vm_compute. congruence.
Defined.

End ActiveBranch.

(** * Further properties of the code *)

Import TestRoutes HashPasswords Notions.

(** ** Roles *)

Section Roles.

Lemma upper_char_idempotent (c : ascii) : upper_char (upper_char c) = upper_char c.
Proof. destruct c as [[] [] [] [] [] [] [] []]; reflexivity. Qed.

Lemma toUpperCase_idempotent (s : string) : toUpperCase (toUpperCase s) = toUpperCase s.
Proof.
  induction s as [| c s IH]; simpl; [reflexivity |].
  now rewrite upper_char_idempotent, IH.
Qed.

Lemma normalized_allowed (allowedRoles : list string) :
  map (fun r => normalizeRole (Some r)) (map toUpperCase allowedRoles)
  = map (fun r => normalizeRole (Some r)) allowedRoles.
Proof.
  rewrite map_map. apply map_ext. intros a. unfold normalizeRole. simpl.
  apply toUpperCase_idempotent.
Qed.

(** X1. [requireRoles] lets a request through, unchanged, exactly when
    the upper-cased role of its user is not empty and is the
    upper-casing of an allowed role; a request with no role is answered
    401 whatever the list is, every other refusal is a 403; the empty
    list lets nobody through, and writing the allowed roles in upper
    case changes nothing. *)
Theorem requireRoles_passes_iff (allowedRoles : list string) (req : Req) :
  (requireRoles allowedRoles req = Next req
   <-> normalizeRole (req_role req) <> ""
       /\ exists a, In a allowedRoles /\ toUpperCase a = normalizeRole (req_role req))
  /\ (forall req', requireRoles allowedRoles req = Next req' -> req' = req)
  /\ (normalizeRole (req_role req) = "" ->
      requireRoles allowedRoles req = Respond 401 "Authentication required")
  /\ (forall status message,
        requireRoles allowedRoles req = Respond status message ->
        normalizeRole (req_role req) <> "" -> status = 403)
  /\ requireRoles [] req <> Next req
  /\ requireRoles (map toUpperCase allowedRoles) req = requireRoles allowedRoles req.
Proof.
  split; [| split; [| split; [| split; [| split]]]].
  - split.
    + intros H. apply requireRoles_next in H as (_ & Hrole & Hin).
      split; [assumption |]. apply in_map_iff in Hin as (a & Ha & Hin). eauto.
    + intros (Hrole & a & Hin & Ha). unfold requireRoles.
      apply String.eqb_neq in Hrole. rewrite Hrole.
      assert (Hex : existsb (String.eqb (normalizeRole (req_role req)))
                      (map (fun r => normalizeRole (Some r)) allowedRoles) = true).
      { apply existsb_exists. exists (toUpperCase a). split.
        - apply in_map_iff. eauto.
        - rewrite Ha. apply String.eqb_refl. }
      now rewrite Hex.
  - intros req' H. now apply requireRoles_next in H.
  - intros Hrole. unfold requireRoles. now rewrite Hrole.
  - intros status message H Hrole. unfold requireRoles in H.
    apply String.eqb_neq in Hrole. rewrite Hrole in H.
    destruct (negb _); [now injection H as <- _ | discriminate].
  - unfold requireRoles. simpl. destruct (String.eqb _ ""); discriminate.
  - unfold requireRoles. now rewrite normalized_allowed.
Qed.

Lemma requireRoles_passes_iff_witness :
  requireRoles ["admin"; "Manager"] (Scenarios.request_of Scenarios.manager5)
  = Next (Scenarios.request_of Scenarios.manager5).
Proof.
  apply (proj2 (proj1 (requireRoles_passes_iff ["admin"; "Manager"]
                         (Scenarios.request_of Scenarios.manager5)))).
  split; [discriminate |]. exists "Manager". split; [right; left |]; reflexivity.
Defined.

Lemma requireChefOrdersOnly_next (req req' : Req) :
  requireChefOrdersOnly req = Next req' ->
  req_user req' = req_user req
  /\ (normalizeRole (req_role req) <> "CHEF" -> req' = req)
  /\ (normalizeRole (req_role req) = "CHEF" ->
      exists b, req_branchId req = Some b /\ b <> 0 /\ req_activeBranchId req' = Some b).
Proof.
  unfold requireChefOrdersOnly.
  destruct (String.eqb_spec (normalizeRole (req_role req)) "CHEF") as [Hchef | Hchef]; simpl.
  - destruct (req_branchId req) as [b |] eqn:Hb; simpl; [| discriminate].
    destruct (Z.eqb_spec b 0); [discriminate |].
    intros [= <-]. split; [reflexivity |]. split; [contradiction | eauto].
  - intros [= <-]. split; [reflexivity |]. split; [reflexivity | contradiction].
Qed.

Lemma resolveBranchId_locked (req : Req) (candidate : value) :
  normalizeRole (req_role req) <> "ADMIN" ->
  resolveBranchId req candidate = Int <$> req_branchId req.
Proof.
  intros Hrole. apply String.eqb_neq in Hrole.
  unfold resolveBranchId. fold (normalizeRole (req_role req)). rewrite Hrole. simpl.
  apply parse_or_null_of_id.
Qed.

(** X2. A CHEF passes [requireChefOrdersOnly] exactly with a home branch
    other than 0, and then carries it as the active branch of the
    request, whatever had been attached: the resolver and
    [getUserBranchId] both give this branch. Any other role passes with
    the request unchanged, and running the middleware twice is running
    it once. *)
Theorem requireChefOrdersOnly_locks_branch (req : Req) :
  (normalizeRole (req_role req) <> "CHEF" -> requireChefOrdersOnly req = Next req)
  /\ (normalizeRole (req_role req) = "CHEF" ->
      (forall b, req_branchId req = Some b -> b <> 0 ->
         exists req', requireChefOrdersOnly req = Next req'
                      /\ req_activeBranchId req' = Some b
                      /\ getUserBranchId req' = Some (Int b)
                      /\ forall candidate, resolveBranchId req' candidate = Some (Int b))
      /\ (req_branchId req = None \/ req_branchId req = Some 0 ->
          requireChefOrdersOnly req = Respond 403 "CHEF: Branch assignment required"))
  /\ run_chain [requireChefOrdersOnly; requireChefOrdersOnly] req = requireChefOrdersOnly req.
Proof.
  split; [| split].
  - intros Hrole. apply String.eqb_neq in Hrole.
    unfold requireChefOrdersOnly. now rewrite Hrole.
  - intros Hrole. split.
    + intros b Hb Hb0. unfold requireChefOrdersOnly. rewrite Hrole, Hb. simpl.
      destruct (Z.eqb_spec b 0); [contradiction |].
      eexists. split; [reflexivity |]. split; [reflexivity |]. split.
      * unfold getUserBranchId. change (req_branchId (set_activeBranchId req (Some b)))
          with (req_branchId req). now rewrite Hb.
      * intros candidate. rewrite resolveBranchId_locked.
        -- change (req_branchId (set_activeBranchId req (Some b))) with (req_branchId req).
           now rewrite Hb.
        -- change (req_role (set_activeBranchId req (Some b))) with (req_role req).
           rewrite Hrole. discriminate.
    + unfold requireChefOrdersOnly. rewrite Hrole. now intros [-> | ->].
  - cbn [run_chain]. destruct (requireChefOrdersOnly req) as [req' | s m] eqn:H; [| reflexivity].
    unfold requireChefOrdersOnly in *.
    destruct (String.eqb_spec (normalizeRole (req_role req)) "CHEF") as [Hchef | Hchef]; simpl in *.
    + destruct (req_branchId req) as [b |] eqn:Hb; simpl in *; [| discriminate].
      destruct (Z.eqb_spec b 0); [discriminate |]. injection H as <-.
      change (req_role (set_activeBranchId req (Some b))) with (req_role req).
      change (req_branchId (set_activeBranchId req (Some b))) with (req_branchId req).
      rewrite Hchef, Hb. simpl. destruct (Z.eqb_spec b 0); [contradiction |]. reflexivity.
    + injection H as <-. apply String.eqb_neq in Hchef. now rewrite Hchef.
Qed.

Lemma requireChefOrdersOnly_locks_branch_witness :
  exists req',
    requireChefOrdersOnly (Scenarios.request_of Scenarios.chef2) = Next req'
    /\ req_activeBranchId req' = Some 2
    /\ getUserBranchId req' = Some (Int 2)
    /\ forall candidate, resolveBranchId req' candidate = Some (Int 2).
Proof.
  apply (requireChefOrdersOnly_locks_branch (Scenarios.request_of Scenarios.chef2));
    [reflexivity | reflexivity | discriminate].
Defined.

End Roles.

(** ** The branch check as the routes use it *)

Section Scoping.

Lemma enforceBranchAccess_next (resolver : Resolver) (req req' : Req) :
  enforceBranchAccess resolver req = Next req' -> req' = req.
Proof.
  unfold enforceBranchAccess.
  destruct (String.eqb _ ""); [discriminate |].
  destruct (String.eqb _ "ADMIN"); [now intros [= <-] |].
  destruct (resolve resolver req) as [r |]; [| discriminate].
  destruct (falsy_branch r); [discriminate |].
  destruct (falsy_id _); [discriminate |].
  destruct (negb _); [discriminate | now intros [= <-]].
Qed.

Lemma attachActiveBranch_next (db : DB) (req req' : Req) :
  attachActiveBranch db req = Next req' ->
  exists a, req' = set_activeBranchId req a
            /\ (forall u, req_user req = Some u ->
                  a = or_null (user_findUnique db (user_id u) ≫= user_activeBranchId)).
Proof.
  unfold attachActiveBranch. destruct (req_user req) as [u |].
  - intros [= <-]. eexists. split; [reflexivity |]. now intros u' [= <-].
  - intros [= <-]. exists (req_activeBranchId req). split; [now destruct req | discriminate].
Qed.

(** The request after authentication and [attachActiveBranch]. *)
Lemma attached_request (jwt : Jwt) (db : DB) (req req1 : Req) :
  run_chain [authenticateToken jwt db; attachActiveBranch db] req = Next req1 ->
  exists caller,
    authenticateToken jwt db req = Next (set_user req caller)
    /\ user_findUnique db (user_id caller) = Some caller
    /\ req1 = set_activeBranchId (set_user req caller) (or_null (user_activeBranchId caller)).
Proof.
  cbn [run_chain].
  destruct (authenticateToken jwt db req) as [r0 | s m] eqn:Hauth; [| discriminate].
  destruct (authenticateToken_next jwt db req r0 Hauth) as (caller & -> & Hfind).
  destruct (attachActiveBranch db (set_user req caller)) as [r1 | s m] eqn:Hatt; [| discriminate].
  intros [= <-]. exists caller. split; [reflexivity |]. split; [assumption |].
  apply attachActiveBranch_next in Hatt as (a & -> & Ha).
  rewrite (Ha caller eq_refl), Hfind. reflexivity.
Qed.

Lemma authenticateToken_authenticated (jwt : Jwt) (db : DB) (req req' : Req) :
  authenticateToken jwt db req = Next req' -> authenticated jwt db req.
Proof.
  unfold authenticateToken, authenticated, user_findUnique.
  destruct (bearer_token _) as [token |]; [| discriminate].
  destruct (jwt token) as [i |] eqn:Hjwt; [| discriminate].
  destruct (users db !! i) as [r |] eqn:Hr; [| discriminate].
  intros _. exists token, i. rewrite Hr. eauto.
Qed.

Lemma enforceBranchAccess_locked (candidate : Req -> value) (req : Req) :
  normalizeRole (req_role req) <> "" ->
  normalizeRole (req_role req) <> "ADMIN" ->
  enforceBranchAccess (Fun (fun r => Normal (resolveBranchId r (candidate r)))) req
  = if falsy_id (req_branchId req) then Respond 400 "Branch context required"
    else Next req.
Proof.
  intros Hrole Hadmin.
  rewrite (enforceBranchAccess_unfold _ req (Int <$> req_branchId req) Hrole Hadmin)
    by (simpl; now rewrite resolveBranchId_locked).
  destruct (req_branchId req) as [b |]; simpl; [| reflexivity].
  destruct (Z.eqb_spec b 0); simpl; [reflexivity |]. now rewrite Z.eqb_refl.
Qed.



Lemma GET_orders_branch_after_attach (jwt : Jwt) (db : DB) (req req1 : Req) :
  run_chain [authenticateToken jwt db; attachActiveBranch db] req = Next req1 ->
  GET_orders_branch jwt db req
  = route [requireRoles all_roles; enforceBranchAccess inventory_resolver]
          orders_branch_handler req1.
Proof.
  intros H. unfold GET_orders_branch, route.
  change (orders_branch_guards jwt db)
    with ([authenticateToken jwt db; attachActiveBranch db]
          ++ [requireRoles all_roles; enforceBranchAccess inventory_resolver])%list.
  now rewrite run_chain_app, H.
Qed.

(** X4. [GET /api/inventory/:branchId], once authenticated. A MANAGER
    or STAFF without a home branch other than 0 is answered 400 "Branch
    context required"; with a home branch that is a safe integer the
    query is the one of this branch, whatever the branch in the path
    is, when it fits the 32-bit column, and otherwise the query throws
    and the answer is 400 "Error fetching inventory". For an ADMIN the
    branch is the one [parseInt] reads in the path: the query of that
    branch when it is a 32-bit integer, and 400 "Error fetching
    inventory" when it is not, [NaN] included. *)
Theorem GET_inventory_scope (jwt : Jwt) (db : DB) (req req1 : Req) :
  run_chain [authenticateToken jwt db; attachActiveBranch db] req = Next req1 ->
  (normalizeRole (req_role req1) = "MANAGER" \/ normalizeRole (req_role req1) = "STAFF" ->
   (falsy_id (req_branchId req1) = true ->
    GET_inventory jwt db req = Answer 400 "Branch context required")
   /\ (forall b,
         req_branchId req1 = Some b ->
         b <> 0 ->
         safe_integer b ->
         GET_inventory jwt db req
         = if (-2147483648 <=? b) && (b <=? 2147483647)
           then Rows (FindMany "inventoryItem" (mkWhere (Some (Some (Int b))) None))
           else Answer 400 "Error fetching inventory"))
  /\ (normalizeRole (req_role req1) = "ADMIN" ->
      GET_inventory jwt db req
      = match prisma_int (Some (parseInt_string (req_params_branchId req))) with
        | Some z => Rows (FindMany "inventoryItem" (mkWhere (Some (Some (Int z))) None))
        | None => Answer 400 "Error fetching inventory"
        end).
Proof.
  intros H. rewrite (GET_inventory_after_attach _ _ _ _ H). unfold route. cbn [run_chain].
  split.
  - intros Hrole.
    assert (Hne : normalizeRole (req_role req1) <> "" /\ normalizeRole (req_role req1) <> "ADMIN"
                  /\ normalizeRole (req_role req1) <> "CHEF")
      by (destruct Hrole as [-> | ->]; repeat split; discriminate).
    destruct Hne as (Hne & Hadmin & Hchef).
    unfold blockChefFromNonOrders. apply String.eqb_neq in Hchef. rewrite Hchef.
    replace (requireRoles ["ADMIN"; "MANAGER"; "STAFF"] req1) with (Next req1)
      by (unfold requireRoles; destruct Hrole as [-> | ->]; reflexivity).
    unfold inventory_resolver. rewrite (enforceBranchAccess_locked _ req1 Hne Hadmin).
    split.
    + now intros ->.
    + intros b Hb Hb0 _. rewrite Hb. simpl. apply Z.eqb_neq in Hb0. rewrite Hb0.
      unfold inventory_handler. rewrite resolveBranchId_locked by assumption.
      rewrite Hb. simpl.
      now destruct ((-2147483648 <=? b) && (b <=? 2147483647)).
  - intros Hrole.
    replace (blockChefFromNonOrders req1) with (Next req1)
      by (unfold blockChefFromNonOrders; now rewrite Hrole).
    replace (requireRoles ["ADMIN"; "MANAGER"; "STAFF"] req1) with (Next req1)
      by (unfold requireRoles; now rewrite Hrole).
    replace (enforceBranchAccess inventory_resolver req1) with (Next req1)
      by (unfold enforceBranchAccess; now rewrite Hrole).
    unfold inventory_handler, resolveBranchId. fold (normalizeRole (req_role req1)).
    rewrite Hrole. simpl.
    apply attached_request in H as (caller & _ & _ & ->).
    set (n := parseInt_string (req_params_branchId req)).
    change (match prisma_int (Some n) with
            | Some _ => Rows (FindMany "inventoryItem" (mkWhere (Some (Some n)) None))
            | None => Answer 400 "Error fetching inventory"
            end
            = match prisma_int (Some n) with
              | Some z => Rows (FindMany "inventoryItem" (mkWhere (Some (Some (Int z))) None))
              | None => Answer 400 "Error fetching inventory"
              end).
    destruct n as [| z]; simpl; [reflexivity |].
    now destruct ((-2147483648 <=? z) && (z <=? 2147483647)).
Qed.

Lemma GET_inventory_scope_witness :
  GET_inventory Scenarios.jwt Scenarios.db (Scenarios.bearer "10" "" "7" Undefined None)
  = Rows (FindMany "inventoryItem" (mkWhere (Some (Some (Int 5))) None)).
Proof.
  apply (proj2 (proj1 (GET_inventory_scope Scenarios.jwt Scenarios.db
           (Scenarios.bearer "10" "" "7" Undefined None)
           (set_activeBranchId
              (set_user (Scenarios.bearer "10" "" "7" Undefined None) Scenarios.manager5) None)
           ltac:(vm_compute; reflexivity))
           ltac:(left; reflexivity)) 5).
  - reflexivity.
  - lia.
  - unfold safe_integer. lia.
Defined.

(** X5. [GET /api/reservations], once authenticated: a MANAGER, STAFF
    or CUSTOMER with a home branch other than 0 gets the reservations of
    that branch only, whatever [?branchId] asks for, and a CUSTOMER only
    their own. *)
Theorem GET_reservations_scope (jwt : Jwt) (db : DB) (req req1 : Req) (b : Z) :
  run_chain [authenticateToken jwt db; attachActiveBranch db] req = Next req1 ->
  normalizeRole (req_role req1) = "MANAGER" \/ normalizeRole (req_role req1) = "STAFF"
  \/ normalizeRole (req_role req1) = "CUSTOMER" ->
  req_branchId req1 = Some b ->
  b <> 0 ->
  GET_reservations jwt db req
  = Rows (FindMany "reservation"
            (mkWhere (Some (Some (Int b)))
               (if String.eqb (normalizeRole (req_role req1)) "CUSTOMER"
                then user_id <$> req_user req1 else None))).
Proof.
  intros H Hrole Hb Hb0.
  rewrite (GET_reservations_after_attach _ _ _ _ H). unfold route. cbn [run_chain].
  assert (Hne : normalizeRole (req_role req1) <> "" /\ normalizeRole (req_role req1) <> "ADMIN"
                /\ normalizeRole (req_role req1) <> "CHEF")
    by (destruct Hrole as [-> | [-> | ->]]; repeat split; discriminate).
  destruct Hne as (Hne & Hadmin & Hchef).
  unfold blockChefFromNonOrders. apply String.eqb_neq in Hchef. rewrite Hchef.
  replace (requireRoles ["ADMIN"; "MANAGER"; "STAFF"; "CUSTOMER"] req1) with (Next req1)
    by (unfold requireRoles; destruct Hrole as [-> | [-> | ->]]; reflexivity).
  unfold reservations_resolver. rewrite (enforceBranchAccess_locked _ req1 Hne Hadmin).
  rewrite Hb. simpl. destruct (Z.eqb_spec b 0); [contradiction |].
  unfold reservations_handler. rewrite resolveBranchId_locked by assumption.
  rewrite Hb. simpl. destruct (Z.eqb_spec b 0); [contradiction |]. reflexivity.
Qed.

Lemma GET_reservations_scope_witness :
  GET_reservations Scenarios.jwt Scenarios.db (Scenarios.bearer "11" "" "" (Str "9") None)
  = Rows (FindMany "reservation" (mkWhere (Some (Some (Int 2))) None)).
Proof.
  apply (GET_reservations_scope Scenarios.jwt Scenarios.db
           (Scenarios.bearer "11" "" "" (Str "9") None)
           (set_activeBranchId
              (set_user (Scenarios.bearer "11" "" "" (Str "9") None) Scenarios.manager2) None)
           2).
  - vm_compute. reflexivity.
  - left. reflexivity.
  - reflexivity.
  - discriminate.
Defined.

(** X6. [GET /api/orders/:branchId] never queries without a branch:
    when it answers with rows, the [where] of its query names a branch
    id that is an integer other than 0, which is the home branch of the
    caller unless the caller is an ADMIN, and the query is restricted to
    the orders of the caller exactly for a CUSTOMER. *)
Theorem GET_orders_branch_scoped (jwt : Jwt) (db : DB) (req : Req) (q : Query) :
  GET_orders_branch jwt db req = Rows q ->
  exists caller b,
    authenticateToken jwt db req = Next (set_user req caller)
    /\ b <> 0
    /\ q = FindMany "order"
             (mkWhere (Some (Some (Int b)))
                (if String.eqb (normalizeRole (Some (user_role caller))) "CUSTOMER"
                 then Some (user_id caller) else None))
    /\ (normalizeRole (Some (user_role caller)) <> "ADMIN" -> user_branchId caller = Some b).
Proof.
  destruct (run_chain [authenticateToken jwt db; attachActiveBranch db] req)
    as [req1 | s m] eqn:H.
  2: { unfold GET_orders_branch, route.
       change (orders_branch_guards jwt db)
         with ([authenticateToken jwt db; attachActiveBranch db]
               ++ [requireRoles all_roles; enforceBranchAccess inventory_resolver])%list.
       rewrite run_chain_app, H. discriminate. }
  rewrite (GET_orders_branch_after_attach _ _ _ _ H). unfold route. cbn [run_chain].
  destruct (requireRoles all_roles req1) as [r2 | s m] eqn:Hroles; [| discriminate].
  apply requireRoles_next in Hroles as (-> & _ & _).
  destruct (enforceBranchAccess inventory_resolver req1) as [r3 | s m] eqn:Henf; [| discriminate].
  apply enforceBranchAccess_next in Henf as ->.
  unfold orders_branch_handler.
  destruct (resolveBranchId req1 (Str (req_params_branchId req1))) as [[| n] |] eqn:Hres;
    simpl; try discriminate.
  destruct (Z.eqb_spec n 0); simpl; [discriminate |]. intros [= <-].
  apply attached_request in H as (caller & Hauth & _ & ->).
  exists caller, n. split; [assumption |]. split; [assumption |]. split; [reflexivity |].
  intros Hadmin. rewrite resolveBranchId_locked in Hres by exact Hadmin.
  change (req_branchId _) with (user_branchId caller) in Hres.
  destruct (user_branchId caller); simpl in Hres; congruence.
Qed.

Lemma GET_orders_branch_scoped_witness :
  exists caller b,
    authenticateToken Scenarios.jwt Scenarios.db (Scenarios.bearer "13" "" "9" Undefined None)
    = Next (set_user (Scenarios.bearer "13" "" "9" Undefined None) caller)
    /\ b <> 0
    /\ FindMany "order" (mkWhere (Some (Some (Int 9))) None)
       = FindMany "order"
           (mkWhere (Some (Some (Int b)))
              (if String.eqb (normalizeRole (Some (user_role caller))) "CUSTOMER"
               then Some (user_id caller) else None))
    /\ (normalizeRole (Some (user_role caller)) <> "ADMIN" -> user_branchId caller = Some b).
Proof.
  apply (GET_orders_branch_scoped Scenarios.jwt Scenarios.db
           (Scenarios.bearer "13" "" "9" Undefined None)).
  vm_compute. reflexivity.
Defined.

(** X7. [GET /api/admin/staff/:branchId] gives the staff of a branch
    only to an ADMIN, for the branch [parseInt] reads in the path, and
    to a MANAGER whose home branch is that branch. *)
Theorem GET_admin_staff_own_branch (jwt : Jwt) (db : DB) (req : Req) (q : Query) :
  GET_admin_staff jwt db req = Rows q ->
  exists caller n,
    authenticateToken jwt db req = Next (set_user req caller)
    /\ q = StaffOfBranch (Int n)
    /\ parseInt (Str (req_params_branchId req)) = Int n
    /\ (normalizeRole (Some (user_role caller)) = "ADMIN"
        \/ (normalizeRole (Some (user_role caller)) = "MANAGER"
            /\ user_branchId caller = Some n)).
Proof.
  unfold GET_admin_staff, route, staff_guards. cbn [run_chain].
  destruct (authenticateToken jwt db req) as [r0 | s m] eqn:Hauth; [| discriminate].
  destruct (authenticateToken_next jwt db req r0 Hauth) as (caller & -> & _).
  destruct (requireRoles _ (set_user req caller)) as [r1 | s m] eqn:Hroles; [| discriminate].
  apply requireRoles_next in Hroles as (-> & _ & Hin).
  unfold staff_handler.
  change (req_params_branchId (set_user req caller)) with (req_params_branchId req).
  destruct (parseInt (Str (req_params_branchId req))) as [| n] eqn:Hparam; [discriminate |].
  change (req_role (set_user req caller)) with (Some (user_role caller)) in *.
  change (req_branchId (set_user req caller)) with (user_branchId caller).
  fold (normalizeRole (Some (user_role caller))).
  destruct (String.eqb_spec (normalizeRole (Some (user_role caller))) "ADMIN") as [Hadm | Hadm];
    simpl.
  - intros [= <-]. exists caller, n. auto.
  - destruct (num_strict_eq _ _) eqn:Heq; simpl; [| discriminate].
    intros [= <-]. exists caller, n. repeat split. right. split.
    + destruct Hin as [Hin | [Hin | []]]; [| now symmetry].
      exfalso. apply Hadm. now symmetry.
    + apply num_strict_eq_Int in Heq.
      destruct (user_branchId caller) as [b |]; simpl in Heq; [| discriminate].
      rewrite parseInt_Int in Heq. congruence.
Qed.

Lemma GET_admin_staff_own_branch_witness :
  exists caller n,
    authenticateToken Scenarios.jwt Scenarios.db (Scenarios.bearer "10" "" "5" Undefined None)
    = Next (set_user (Scenarios.bearer "10" "" "5" Undefined None) caller)
    /\ StaffOfBranch (Int 5) = StaffOfBranch (Int n)
    /\ parseInt (Str "5") = Int n
    /\ (normalizeRole (Some (user_role caller)) = "ADMIN"
        \/ (normalizeRole (Some (user_role caller)) = "MANAGER"
            /\ user_branchId caller = Some n)).
Proof.
  apply (GET_admin_staff_own_branch Scenarios.jwt Scenarios.db
           (Scenarios.bearer "10" "" "5" Undefined None)).
  vm_compute. reflexivity.
Defined.

(** X8. [attachActiveBranch] never answers and never touches the user
    of the request; the active branch it attaches is never 0; and
    listing it twice in a route, as [POST /api/orders/create] does, is
    listing it once. *)
Theorem attachActiveBranch_idempotent (db : DB) (req : Req) :
  (exists a, attachActiveBranch db req = Next (set_activeBranchId req a)
             /\ (is_Some (req_user req) -> a <> Some 0))
  /\ run_chain [attachActiveBranch db; attachActiveBranch db] req = attachActiveBranch db req.
Proof.
  split.
  - unfold attachActiveBranch. destruct (req_user req) as [u |].
    + eexists. split; [reflexivity |]. intros _.
      destruct (user_findUnique db (user_id u) ≫= user_activeBranchId) as [a |]; simpl;
        [| discriminate].
      destruct (Z.eqb_spec a 0); congruence.
    + exists (req_activeBranchId req). split; [now destruct req |]. now intros [? [=]].
  - cbn [run_chain]. unfold attachActiveBranch.
    destruct (req_user req) as [u |] eqn:Hu.
    + change (req_user (set_activeBranchId req _)) with (req_user req). now rewrite Hu.
    + now rewrite Hu.
Qed.

Lemma attachActiveBranch_idempotent_witness :
  run_chain [attachActiveBranch Scenarios.db; attachActiveBranch Scenarios.db]
    (Scenarios.request_of Scenarios.admin13)
  = attachActiveBranch Scenarios.db (Scenarios.request_of Scenarios.admin13).
Proof.
  apply (attachActiveBranch_idempotent Scenarios.db (Scenarios.request_of Scenarios.admin13)).
Defined.

End Scoping.

(** ** Tokens and requested ids *)

Section Inputs.

(** X9. For an ADMIN, a requested branch id that starts with a positive
    safe integer followed by a character that is not a digit resolves
    to that integer: [parseInt] reads the digits and ignores the rest
    of the string. *)
Theorem resolveBranchId_admin_prefix (req : Req) (p : positive) (c : ascii) (rest : string) :
  normalizeRole (req_role req) = "ADMIN" ->
  safe_integer (Z.pos p) ->
  radix_digit 10 c = None ->
  resolveBranchId req (Str (num_to_string (Int (Z.pos p)) ++ String c rest))
  = Some (Int (Z.pos p)).
Proof.
  intros Hrole _ Hc. unfold resolveBranchId. fold (normalizeRole (req_role req)).
  rewrite Hrole. change (negb ("ADMIN" =? "ADMIN")%string) with false. cbv iota.
  cbv [nullish_or is_nullish parse_or_null]. f_equal.
  now apply parseInt_string_prefix.
Qed.

Lemma resolveBranchId_admin_prefix_witness :
  resolveBranchId Scenarios.admin13_attached (Str "7 or 9") = Some (Int 7).
Proof.
  apply (resolveBranchId_admin_prefix Scenarios.admin13_attached 7 " " "or 9");
    [reflexivity | unfold safe_integer; lia | reflexivity].
Defined.

Lemma split_field (a b : string) :
  no_space a = true ->
  split " " (a ++ String " " b) = a :: split " " b.
Proof.
  induction a as [| c a IH]; intros Ha; [reflexivity |].
  simpl in Ha. apply andb_prop in Ha as [Hc Ha]. apply negb_true_iff in Hc.
  change (String c a ++ String " " b) with (String c (a ++ String " " b)).
  cbn [split]. rewrite Hc, (IH Ha). reflexivity.
Qed.

Lemma split_single (a : string) :
  no_space a = true -> split " " a = [a].
Proof.
  induction a as [| c a IH]; intros Ha; [reflexivity |].
  simpl in Ha. apply andb_prop in Ha as [Hc Ha]. apply negb_true_iff in Hc.
  cbn [split]. rewrite Hc, (IH Ha). reflexivity.
Qed.

(** X10. The token read by [authenticateToken] is the second field of
    the Authorization header, split at spaces: the first word is not
    looked at, a third field is ignored, and a header of one word, or
    with nothing after the first space, carries no token. *)
Theorem bearer_token_second_field (scheme token rest : string) :
  no_space scheme = true ->
  no_space token = true ->
  token <> "" ->
  bearer_token (Some (scheme ++ " " ++ token)) = Some token
  /\ bearer_token (Some (scheme ++ " " ++ token ++ " " ++ rest)) = Some token
  /\ bearer_token (Some scheme) = None
  /\ bearer_token (Some (scheme ++ " ")) = None.
Proof.
  intros Hscheme Htoken Hne. apply String.eqb_neq in Hne.
  unfold bearer_token. repeat split.
  - change (scheme ++ " " ++ token) with (scheme ++ String " " token).
    rewrite split_field, split_single by assumption. simpl. now rewrite Hne.
  - change (scheme ++ " " ++ token ++ " " ++ rest)
      with (scheme ++ String " " (token ++ String " " rest)).
    rewrite split_field by assumption. rewrite split_field by assumption.
    simpl. now rewrite Hne.
  - now rewrite split_single.
  - change (scheme ++ " ") with (scheme ++ String " " "").
    now rewrite split_field.
Qed.

Lemma bearer_token_second_field_witness :
  bearer_token (Some "Basic 13") = Some "13"
  /\ bearer_token (Some "Basic 13 14") = Some "13"
  /\ bearer_token (Some "Basic") = None
  /\ bearer_token (Some "Basic ") = None.
Proof.
  apply (bearer_token_second_field "Basic" "13" "14"); [reflexivity | reflexivity | discriminate].
Defined.

End Inputs.

(** ** Updates of the [User] table *)

Section UserUpdates.

Lemma authenticated_row (jwt : Jwt) (db : DB) (req : Req) (caller : User) :
  authenticateToken jwt db req = Next (set_user req caller) ->
  users db !! user_id caller
  = Some (mkRow (user_role caller) (user_branchId caller)
                (user_activeBranchId caller) (user_password caller)).
Proof.
  intros Hauth. apply authenticateToken_next in Hauth as (user & Heq & Hfind).
  injection Heq as ->. unfold user_findUnique in Hfind.
  destruct (users db !! user_id user) as [r |]; [| discriminate].
  simpl in Hfind. injection Hfind as Hrow. rewrite <- Hrow. simpl. now destruct r.
Qed.

Lemma requireRoles_admin (req : Req) :
  normalizeRole (req_role req) = "ADMIN" -> requireRoles ["ADMIN"] req = Next req.
Proof. intros Hrole. unfold requireRoles. now rewrite Hrole. Qed.

(** The tables after the user [u] has set their active branch to [b]. *)
Lemma active_branch_handler_success (db : DB) (req : Req) (caller : User) (body : Body) (b : Z) :
  req_user req = Some caller ->
  users db !! user_id caller
  = Some (mkRow (user_role caller) (user_branchId caller)
                (user_activeBranchId caller) (user_password caller)) ->
  parseInt (Str (req_params_id req)) = Int (user_id caller) ->
  req_body req = Some body ->
  body_branchId body = Num (Int b) ->
  b <> 0 ->
  b ∈ branches db ->
  active_branch_handler db req
  = (ActiveBranch b,
     mkDB (<[user_id caller := mkRow (user_role caller) (user_branchId caller) (Some b)
                                    (user_password caller)]> (users db))
          (branches db)).
Proof.
  intros Hu Hrow Hparam Hbody Hb Hb0 Hin. unfold active_branch_handler.
  rewrite Hu, Hparam, Hbody, Hb. simpl. rewrite Z.eqb_refl. simpl.
  destruct (Z.eqb_spec b 0); [contradiction |]. simpl.
  unfold branch_exists. rewrite bool_decide_eq_true_2 by assumption. simpl.
  unfold user_update_activeBranchId. now rewrite Hrow.
Qed.

(** X11. When an ADMIN names their own id and an existing branch [b]
    other than 0, [PATCH /api/users/:id/active-branch] answers with [b]
    and writes it, and nothing else, to the row of the caller. On every
    later request of that user [attachActiveBranch] attaches [b], and
    with no requested branch the resolver gives [b]. *)
Theorem PATCH_active_branch_round_trip (jwt : Jwt) (db : DB) (req : Req) (caller : User)
    (body : Body) (b : Z) :
  authenticateToken jwt db req = Next (set_user req caller) ->
  normalizeRole (Some (user_role caller)) = "ADMIN" ->
  parseInt (Str (req_params_id req)) = Int (user_id caller) ->
  req_body req = Some body ->
  body_branchId body = Num (Int b) ->
  b <> 0 ->
  b ∈ branches db ->
  let db' :=
    mkDB (<[user_id caller := mkRow (user_role caller) (user_branchId caller) (Some b)
                                   (user_password caller)]> (users db))
         (branches db) in
  PATCH_users_active_branch jwt db req = (ActiveBranch b, db')
  /\ (forall req2 r2,
        run_chain [authenticateToken jwt db'; attachActiveBranch db'] req2 = Next r2 ->
        user_id <$> req_user r2 = Some (user_id caller) ->
        req_activeBranchId r2 = Some b
        /\ resolveBranchId r2 Undefined = Some (Int b)
        /\ resolveBranchId r2 Null = Some (Int b)).
Proof.
  intros Hauth Hrole Hparam Hbody Hb Hb0 Hin db'.
  pose proof (authenticated_row jwt db req caller Hauth) as Hrow.
  split.
  - unfold PATCH_users_active_branch, route_db. cbn [run_chain]. rewrite Hauth.
    rewrite requireRoles_admin by exact Hrole.
    now apply (active_branch_handler_success db (set_user req caller) caller body b).
  - intros req2 r2 Hchain Hid.
    apply attached_request in Hchain as (caller2 & _ & Hfind & ->).
    simpl in Hid. injection Hid as Hid.
    unfold user_findUnique in Hfind. rewrite Hid in Hfind. subst db'. simpl in Hfind.
    rewrite lookup_insert_eq in Hfind. simpl in Hfind. injection Hfind as Hcaller2.
    assert (Hactive : user_activeBranchId caller2 = Some b) by now rewrite <- Hcaller2.
    assert (Hrole2 : user_role caller2 = user_role caller) by now rewrite <- Hcaller2.
    rewrite Hactive. simpl. destruct (Z.eqb_spec b 0); [contradiction |].
    split; [reflexivity |].
    assert (Hres : forall v, is_nullish v = true ->
                   resolveBranchId
                     (set_activeBranchId (set_user req2 caller2) (Some b)) v
                   = Some (Int b)).
    { intros v Hv. unfold resolveBranchId.
      change (req_role (set_activeBranchId (set_user req2 caller2) (Some b)))
        with (Some (user_role caller2)).
      rewrite Hrole2. fold (normalizeRole (Some (user_role caller))). rewrite Hrole.
      change (negb ("ADMIN" =? "ADMIN")%string) with false. cbv iota.
      unfold nullish_or at 3. rewrite Hv.
      cbv [nullish_or is_nullish of_id req_activeBranchId set_activeBranchId parse_or_null].
      now rewrite parseInt_Int. }
    split; now apply Hres.
Qed.

Lemma PATCH_active_branch_round_trip_witness :
  fst (PATCH_users_active_branch Scenarios.jwt Scenarios.db Scenarios.admin13_switch)
  = ActiveBranch 5.
Proof.
  pose proof (PATCH_active_branch_round_trip Scenarios.jwt Scenarios.db
                Scenarios.admin13_switch Scenarios.admin13
                (mkBody (Num (Int 5)) Undefined Undefined) 5) as H.
  simpl in H. destruct H as [H _];
    [ vm_compute; reflexivity | reflexivity | reflexivity | reflexivity | reflexivity
    | discriminate | set_solver | ].
  now rewrite H.
Defined.

Lemma valid_insert_same_active (db : DB) (i : Z) (r r' : UserRow) :
  users db !! i = Some r ->
  row_activeBranchId r' = row_activeBranchId r ->
  active_branches_valid db ->
  active_branches_valid (mkDB (<[i := r']> (users db)) (branches db)).
Proof.
  unfold active_branches_valid. intros Hr Hsame Hvalid. simpl.
  apply map_Forall_insert_2; [| exact Hvalid].
  rewrite Hsame. exact (Hvalid i r Hr).
Qed.

Lemma user_update_password_valid (db db' : DB) (i : Z) (p : string) :
  user_update_password db i p = Some db' ->
  active_branches_valid db -> active_branches_valid db'.
Proof.
  unfold user_update_password. destruct (users db !! i) as [r |] eqn:Hr; [| discriminate].
  intros [= <-]. now apply (valid_insert_same_active db i r).
Qed.

Lemma reset_password_valid (hash : Hash) (db : DB) (userId : num) (p : string) :
  active_branches_valid db ->
  active_branches_valid (snd (reset_password hash db userId p)).
Proof.
  intros Hvalid. unfold reset_password. destruct userId as [| i]; [exact Hvalid |].
  destruct (user_findUnique db i); [| exact Hvalid].
  destruct (user_update_password db i (hash p)) as [db' |] eqn:Hup; [| exact Hvalid].
  simpl. exact (user_update_password_valid db db' i (hash p) Hup Hvalid).
Qed.

Lemma active_branch_handler_valid (db : DB) (req : Req) :
  active_branches_valid db ->
  active_branches_valid (snd (active_branch_handler db req)).
Proof.
  intros Hvalid. unfold active_branch_handler.
  destruct (req_user req) as [caller |]; [| exact Hvalid].
  destruct (negb (num_strict_eq _ _)); [exact Hvalid |].
  destruct (req_body req) as [body |]; [| exact Hvalid].
  destruct (truthy (body_branchId body)) eqn:Htruthy; simpl; [| exact Hvalid].
  destruct (body_branchId body) as [| | | [| b] |]; try exact Hvalid.
  destruct (parseInt _) as [| i]; [exact Hvalid |].
  destruct (branch_exists db b) eqn:Hexists; simpl; [| exact Hvalid].
  unfold user_update_activeBranchId.
  destruct (users db !! i) as [r |] eqn:Hr; [| exact Hvalid]. simpl.
  unfold active_branches_valid. simpl. apply map_Forall_insert_2; [| exact Hvalid].
  simpl. split.
  - simpl in Htruthy. now destruct (Z.eqb_spec b 0).
  - unfold branch_exists in Hexists. now apply bool_decide_eq_true in Hexists.
Qed.

(** X12. Every persisted active branch stays the id, other than 0, of a
    stored branch: the three routes that update the [User] table and
    [hashAllPasswords] keep this, because the active-branch update only
    writes a truthy id that [prisma.branch.findUnique] has found. *)
Theorem active_branches_stay_valid (op : UserUpdate) (jwt : Jwt) (hash : Hash)
    (db : DB) (req : Req) :
  active_branches_valid db ->
  active_branches_valid (snd (user_update_route op jwt hash db req))
  /\ active_branches_valid (hashAllPasswords hash db).
Proof.
  intros Hvalid. split.
  - destruct op; simpl;
      [ unfold PATCH_users_active_branch
      | unfold PATCH_admin_staff_reset_password
      | unfold POST_admin_users_reset_password ];
      unfold route_db; destruct (run_chain _ req) as [r |]; try exact Hvalid.
    + now apply active_branch_handler_valid.
    + unfold staff_reset_handler. destruct (req_body r) as [body |]; [| exact Hvalid].
      destruct (checked_password _) as [[p |] |]; [| | exact Hvalid].
      * now apply reset_password_valid.
      * destruct (parseInt _) as [| i]; [exact Hvalid |].
        destruct (user_findUnique db i); exact Hvalid.
    + unfold user_reset_handler. destruct (req_body r) as [body |]; [| exact Hvalid].
      destruct (checked_password _) as [p |]; [| exact Hvalid].
      destruct (parseInt _) as [| i]; [exact Hvalid |].
      destruct p as [p |]; [now apply reset_password_valid |].
      destruct (user_findUnique db i); exact Hvalid.
  - unfold active_branches_valid, hashAllPasswords in *. simpl.
    apply map_Forall_fmap. intros i r Hr. simpl.
    pose proof (Hvalid i r Hr) as H. simpl in H.
    unfold hash_row. now destruct (isHashed (row_password r)).
Qed.

Lemma scenario_db_valid : active_branches_valid Scenarios.db.
Proof.
  unfold active_branches_valid. intros i r H.
  unfold Scenarios.db in H. cbn [users] in H.
  apply elem_of_list_to_map_2 in H. cbn [map] in H.
  repeat (apply elem_of_cons in H as [H | H];
          [injection H as -> ->; simpl;
           first [exact I | split; [discriminate | set_solver]] |]).
  now apply elem_of_nil in H.
Qed.

Lemma active_branches_stay_valid_witness :
  active_branches_valid
    (snd (user_update_route ActiveBranchUpdate Scenarios.jwt Scenarios.hash
            Scenarios.db Scenarios.admin13_switch))
  /\ active_branches_valid (hashAllPasswords Scenarios.hash Scenarios.db).
Proof.
  apply (active_branches_stay_valid ActiveBranchUpdate Scenarios.jwt Scenarios.hash
           Scenarios.db Scenarios.admin13_switch).
  exact scenario_db_valid.
Defined.

Lemma reset_password_changes (hash : Hash) (db : DB) (userId : num) (p : string) (j : Z) :
  users (snd (reset_password hash db userId p)) !! j <> users db !! j ->
  userId = Int j
  /\ exists r, users db !! j = Some r
               /\ users (snd (reset_password hash db userId p)) !! j
                  = Some (mkRow (row_role r) (row_branchId r) (row_activeBranchId r) (hash p)).
Proof.
  unfold reset_password. destruct userId as [| i]; [now intros [] |].
  destruct (user_findUnique db i); [| now intros []].
  unfold user_update_password.
  destruct (users db !! i) as [r |] eqn:Hr; [| now intros []]. simpl.
  destruct (decide (i = j)) as [<- | Hne].
  - intros _. split; [reflexivity |]. exists r. split; [assumption |].
    apply lookup_insert_eq.
  - rewrite lookup_insert_ne by assumption. now intros [].
Qed.

Lemma checked_password_string (v : value) (p : string) :
  checked_password v = Some (Some p) ->
  v = Str p /\ (3 <= String.length p)%nat.
Proof.
  unfold checked_password. destruct (truthy v); simpl; [| discriminate].
  destruct v as [| | | | s]; try discriminate.
  destruct (Z.ltb_spec (Z.of_nat (String.length s)) 3); [discriminate |].
  intros [= <-]. split; [reflexivity | lia].
Qed.

(** X13. The two password resets change one thing only: the password
    of the user named in the path, which becomes the hash of the
    password sent, a string of at least 3 characters; the caller is an
    ADMIN. Roles, home and active branches and the other rows are left
    as they were. *)
Theorem password_reset_changes_one_password (jwt : Jwt) (hash : Hash) (db : DB)
    (req : Req) (j : Z) :
  (users (snd (PATCH_admin_staff_reset_password jwt hash db req)) !! j <> users db !! j ->
   exists caller body p r,
     authenticateToken jwt db req = Next (set_user req caller)
     /\ normalizeRole (Some (user_role caller)) = "ADMIN"
     /\ parseInt (Str (req_params_id req)) = Int j
     /\ req_body req = Some body
     /\ body_password body = Str p
     /\ (3 <= String.length p)%nat
     /\ users db !! j = Some r
     /\ users (snd (PATCH_admin_staff_reset_password jwt hash db req)) !! j
        = Some (mkRow (row_role r) (row_branchId r) (row_activeBranchId r) (hash p)))
  /\ (users (snd (POST_admin_users_reset_password jwt hash db req)) !! j <> users db !! j ->
      exists caller body p r,
        authenticateToken jwt db req = Next (set_user req caller)
        /\ normalizeRole (Some (user_role caller)) = "ADMIN"
        /\ parseInt (Str (req_params_id req)) = Int j
        /\ req_body req = Some body
        /\ body_newPassword body = Str p
        /\ (3 <= String.length p)%nat
        /\ users db !! j = Some r
        /\ users (snd (POST_admin_users_reset_password jwt hash db req)) !! j
           = Some (mkRow (row_role r) (row_branchId r) (row_activeBranchId r) (hash p))).
Proof.
  split.
  - unfold PATCH_admin_staff_reset_password, route_db. cbn [run_chain].
    destruct (authenticateToken jwt db req) as [r0 | s m] eqn:Hauth; [| now intros []].
    destruct (authenticateToken_next jwt db req r0 Hauth) as (caller & -> & _).
    destruct (requireRoles ["ADMIN"] (set_user req caller)) as [r1 | s m] eqn:Hroles;
      [| now intros []].
    apply requireRoles_next in Hroles as (-> & _ & [Hin | []]).
    unfold staff_reset_handler.
    change (req_body (set_user req caller)) with (req_body req).
    change (req_params_id (set_user req caller)) with (req_params_id req).
    destruct (req_body req) as [body |]; [| now intros []].
    destruct (checked_password (body_password body)) as [[p |] |] eqn:Hpw; [| | now intros []].
    + apply checked_password_string in Hpw as [Hstr Hlen].
      intros Hne. apply reset_password_changes in Hne as (Hid & r & Hr & Hr').
      exists caller, body, p, r. repeat split; try assumption. now symmetry.
    + destruct (parseInt _) as [| i]; [now intros [] |].
      destruct (user_findUnique db i); now intros [].
  - unfold POST_admin_users_reset_password, route_db. cbn [run_chain].
    destruct (authenticateToken jwt db req) as [r0 | s m] eqn:Hauth; [| now intros []].
    destruct (authenticateToken_next jwt db req r0 Hauth) as (caller & -> & _).
    destruct (requireRoles ["ADMIN"] (set_user req caller)) as [r1 | s m] eqn:Hroles;
      [| now intros []].
    apply requireRoles_next in Hroles as (-> & _ & [Hin | []]).
    unfold user_reset_handler.
    change (req_body (set_user req caller)) with (req_body req).
    change (req_params_id (set_user req caller)) with (req_params_id req).
    destruct (req_body req) as [body |]; [| now intros []].
    destruct (checked_password (body_newPassword body)) as [p |] eqn:Hpw; [| now intros []].
    destruct (parseInt (Str (req_params_id req))) as [| i] eqn:Hparam; [now intros [] |].
    destruct p as [p |].
    + apply checked_password_string in Hpw as [Hstr Hlen].
      intros Hne. apply reset_password_changes in Hne as (Hid & r & Hr & Hr').
      exists caller, body, p, r. repeat split; try assumption. now symmetry.
    + destruct (user_findUnique db i); now intros [].
Qed.

Lemma password_reset_changes_one_password_witness :
  exists caller body p r,
    authenticateToken Scenarios.jwt Scenarios.db Scenarios.admin13_reset
    = Next (set_user Scenarios.admin13_reset caller)
    /\ normalizeRole (Some (user_role caller)) = "ADMIN"
    /\ parseInt (Str (req_params_id Scenarios.admin13_reset)) = Int 10
    /\ req_body Scenarios.admin13_reset = Some body
    /\ body_password body = Str p
    /\ (3 <= String.length p)%nat
    /\ users Scenarios.db !! 10 = Some r
    /\ users (snd (PATCH_admin_staff_reset_password Scenarios.jwt Scenarios.hash
                     Scenarios.db Scenarios.admin13_reset)) !! 10
       = Some (mkRow (row_role r) (row_branchId r) (row_activeBranchId r) (Scenarios.hash p)).
Proof.
  apply (password_reset_changes_one_password Scenarios.jwt Scenarios.hash Scenarios.db
           Scenarios.admin13_reset 10).
  vm_compute. congruence.
Defined.

Lemma authenticateToken_token (jwt : Jwt) (db : DB) (req : Req) (caller : User) :
  authenticateToken jwt db req = Next (set_user req caller) ->
  exists token,
    bearer_token (req_authorization req) = Some token /\ jwt token = Some (user_id caller).
Proof.
  unfold authenticateToken.
  destruct (bearer_token _) as [token |]; [| discriminate].
  destruct (jwt token) as [i |] eqn:Hjwt; [| discriminate].
  unfold user_findUnique. destruct (users db !! i) as [r |]; [| discriminate].
  simpl. intros H. unfold set_user in H. injection H as <-.
  exists token. split; [reflexivity | exact Hjwt].
Qed.

Lemma PATCH_users_active_branch_success (jwt : Jwt) (db : DB) (req : Req) (caller : User)
    (body : Body) (b : Z) :
  authenticateToken jwt db req = Next (set_user req caller) ->
  normalizeRole (Some (user_role caller)) = "ADMIN" ->
  parseInt (Str (req_params_id req)) = Int (user_id caller) ->
  req_body req = Some body ->
  body_branchId body = Num (Int b) ->
  b <> 0 ->
  b ∈ branches db ->
  PATCH_users_active_branch jwt db req
  = (ActiveBranch b,
     mkDB (<[user_id caller := mkRow (user_role caller) (user_branchId caller) (Some b)
                                    (user_password caller)]> (users db))
          (branches db)).
Proof.
  intros Hauth Hrole Hparam Hbody Hb Hb0 Hin.
  pose proof (authenticated_row jwt db req caller Hauth) as Hrow.
  unfold PATCH_users_active_branch, route_db. cbn [run_chain]. rewrite Hauth.
  rewrite requireRoles_admin by exact Hrole.
  now apply (active_branch_handler_success db (set_user req caller) caller body b).
Qed.

(** X14. [GET /api/users/:id/active-branch] gives an active branch only
    to a user whose stored role is MANAGER or ADMIN and who names their
    own id, and it is their persisted active branch, [null] for none or
    0. After an ADMIN has set their active branch to [b] with the PATCH
    of the same path, it reads [b] back. *)
Theorem GET_active_branch_reads_back (jwt : Jwt) (db : DB) (req : Req) :
  (forall a,
      GET_users_active_branch jwt db req = ActiveIs a ->
      exists caller,
        authenticateToken jwt db req = Next (set_user req caller)
        /\ (user_role caller = "MANAGER" \/ user_role caller = "ADMIN")
        /\ parseInt (Str (req_params_id req)) = Int (user_id caller)
        /\ a = or_null (user_activeBranchId caller))
  /\ (forall caller body b,
        authenticateToken jwt db req = Next (set_user req caller) ->
        user_role caller = "ADMIN" ->
        parseInt (Str (req_params_id req)) = Int (user_id caller) ->
        req_body req = Some body ->
        body_branchId body = Num (Int b) ->
        b <> 0 ->
        b ∈ branches db ->
        GET_users_active_branch jwt (snd (PATCH_users_active_branch jwt db req)) req
        = ActiveIs (Some b)).
Proof.
  split.
  - intros a. unfold GET_users_active_branch.
    destruct (authenticateToken jwt db req) as [r0 | s m] eqn:Hauth; [| discriminate].
    destruct (authenticateToken_next jwt db req r0 Hauth) as (caller & -> & Hfind).
    cbn [req_user set_user].
    destruct (existsb _ _) eqn:Hex; simpl; [| discriminate].
    change (req_params_id (set_user req caller)) with (req_params_id req).
    destruct (num_strict_eq _ _) eqn:Heq; simpl; [| discriminate].
    apply num_strict_eq_Int in Heq. rewrite Heq, Hfind. simpl. intros [= <-].
    exists caller. repeat split; try assumption.
    simpl in Hex. apply orb_prop in Hex as [Hex | Hex].
    + left. now apply String.eqb_eq in Hex.
    + right. apply orb_prop in Hex as [Hex | Hex]; [| discriminate].
      now apply String.eqb_eq in Hex.
  - intros caller body b Hauth Hrole Hparam Hbody Hb Hb0 Hin.
    rewrite (PATCH_users_active_branch_success jwt db req caller body b)
      by (try assumption; now rewrite Hrole).
    cbn [snd]. unfold GET_users_active_branch, authenticateToken.
    destruct (authenticateToken_token jwt db req caller Hauth) as (token & -> & ->).
    unfold user_findUnique. cbn [users]. rewrite lookup_insert_eq. simpl.
    rewrite Hrole, Hparam. simpl. rewrite Z.eqb_refl. simpl.
    rewrite lookup_insert_eq. simpl. now destruct (Z.eqb_spec b 0).
Qed.

Lemma GET_active_branch_reads_back_witness :
  GET_users_active_branch Scenarios.jwt
    (snd (PATCH_users_active_branch Scenarios.jwt Scenarios.db Scenarios.admin13_switch))
    Scenarios.admin13_switch
  = ActiveIs (Some 5).
Proof.
  apply (GET_active_branch_reads_back Scenarios.jwt Scenarios.db Scenarios.admin13_switch)
    with (caller := Scenarios.admin13) (body := mkBody (Num (Int 5)) Undefined Undefined);
    [ vm_compute; reflexivity | reflexivity | reflexivity | reflexivity | reflexivity
    | discriminate | set_solver ].
Defined.

End UserUpdates.

(** ** Writes to the resources of a branch *)

Section BranchWrites.

Lemma branch_denied_false (req : Req) (b : Z) :
  branch_denied req b = false ->
  b <> 0 /\ resolveBranchId req Undefined = Some (Int b).
Proof.
  unfold branch_denied. intros H. apply orb_false_elim in H as [Hfalsy Heq].
  apply negb_false_iff in Heq.
  destruct (resolveBranchId req Undefined) as [[| n] |]; simpl in *; try discriminate.
  apply Z.eqb_eq in Heq as ->. destruct (Z.eqb_spec n 0); [discriminate | auto].
Qed.

Lemma own_branch_of_resolved (req : Req) (b : Z) :
  normalizeRole (req_role req) <> "ADMIN" ->
  resolveBranchId req Undefined = Some (Int b) ->
  req_branchId req = Some b.
Proof.
  intros Hrole Hres. rewrite resolveBranchId_locked in Hres by assumption.
  destruct (req_branchId req); simpl in Hres; congruence.
Qed.

Lemma not_admin_true (req : Req) :
  normalizeRole (req_role req) <> "ADMIN" -> not_admin req = true.
Proof.
  intros H. apply String.eqb_neq in H. unfold not_admin.
  fold (normalizeRole (req_role req)). now rewrite H.
Qed.

(** X15. [PATCH /api/orders/status/:id] reaches its update only on the
    order named in the path and only when the branch of this order is
    the branch the caller works in: the home branch for a MANAGER or a
    CHEF, and for an ADMIN too the persisted active branch, or the home
    branch when there is none. An order of branch 0 is never updated. *)
Theorem PATCH_orders_status_own_branch (jwt : Jwt) (db : DB) (orders : gmap Z Z)
    (req : Req) (w : Write) :
  PATCH_orders_status jwt db orders req = Issued w ->
  exists caller i b,
    authenticateToken jwt db req = Next (set_user req caller)
    /\ w = UpdateRow "order" i
    /\ parseInt (Str (req_params_id req)) = Int i
    /\ orders !! i = Some b
    /\ b <> 0
    /\ (normalizeRole (Some (user_role caller)) <> "ADMIN" -> user_branchId caller = Some b)
    /\ (normalizeRole (Some (user_role caller)) = "ADMIN" -> admin_branch caller = Some b).
Proof.
  unfold PATCH_orders_status, route_effect.
  change [authenticateToken jwt db; attachActiveBranch db;
          requireRoles ["ADMIN"; "MANAGER"; "CHEF"]]
    with ([authenticateToken jwt db; attachActiveBranch db]
          ++ [requireRoles ["ADMIN"; "MANAGER"; "CHEF"]])%list.
  rewrite run_chain_app.
  destruct (run_chain [authenticateToken jwt db; attachActiveBranch db] req)
    as [req1 | s m] eqn:H; [| discriminate].
  cbn [run_chain].
  destruct (requireRoles _ req1) as [r2 | s m] eqn:Hroles; [| discriminate].
  apply requireRoles_next in Hroles as (-> & _ & _).
  apply attached_request in H as (caller & Hauth & _ & ->).
  unfold order_status_handler.
  cbn [req_body req_user req_params_id set_activeBranchId set_user].
  destruct (req_body req) as [body |]; [| discriminate].
  destruct (parseInt (Str (req_params_id req))) as [| i] eqn:Hparam; [discriminate |].
  destruct (orders !! i) as [b |] eqn:Hb; [| discriminate].
  destruct (branch_denied _ b) eqn:Hdenied; [discriminate |].
  intros [= <-]. apply branch_denied_false in Hdenied as [Hb0 Hres].
  exists caller, i, b. repeat split; try assumption.
  - intros Hrole. apply own_branch_of_resolved in Hres; [exact Hres | exact Hrole].
  - intros Hrole.
    rewrite (resolveBranchId_admin_chain
               (set_activeBranchId (set_user req caller) (or_null (user_activeBranchId caller)))
               Undefined None Hrole Spec.requests_undefined) in Hres.
    unfold admin_branch. cbn [req_activeBranchId req_branchId set_activeBranchId] in Hres.
    change (req_branchId (set_user req caller)) with (user_branchId caller) in Hres.
    unfold Spec.first_defined in Hres.
    change (req_branchId (set_activeBranchId (set_user req caller)
                            (or_null (user_activeBranchId caller))))
      with (user_branchId caller) in Hres.
    destruct (or_null (user_activeBranchId caller)); simpl in Hres; [congruence |].
    destruct (user_branchId caller); simpl in Hres; congruence.
Qed.

Lemma PATCH_orders_status_own_branch_witness :
  exists caller i b,
    authenticateToken Scenarios.jwt Scenarios.db
      (Scenarios.bearer "13" "101" "" Undefined Scenarios.any_body)
    = Next (set_user (Scenarios.bearer "13" "101" "" Undefined Scenarios.any_body) caller)
    /\ UpdateRow "order" 101 = UpdateRow "order" i
    /\ parseInt (Str "101") = Int i
    /\ Scenarios.orders !! i = Some b
    /\ b <> 0
    /\ (normalizeRole (Some (user_role caller)) <> "ADMIN" -> user_branchId caller = Some b)
    /\ (normalizeRole (Some (user_role caller)) = "ADMIN" -> admin_branch caller = Some b).
Proof.
  apply (PATCH_orders_status_own_branch Scenarios.jwt Scenarios.db Scenarios.orders
           (Scenarios.bearer "13" "101" "" Undefined Scenarios.any_body)).
  vm_compute. reflexivity.
Defined.

Lemma guarded_write (req : Req) (caller : User) (b : Z) :
  req_user req = Some caller ->
  not_admin req && branch_denied req b = false ->
  normalizeRole (Some (user_role caller)) <> "ADMIN" ->
  user_branchId caller = Some b /\ b <> 0.
Proof.
  intros Hu Hif Hrole.
  assert (Hrole' : normalizeRole (req_role req) <> "ADMIN")
    by (unfold req_role; now rewrite Hu).
  rewrite (not_admin_true req Hrole') in Hif. simpl in Hif.
  apply branch_denied_false in Hif as [Hb0 Hres].
  apply own_branch_of_resolved in Hres; [| assumption].
  unfold req_branchId in Hres. rewrite Hu in Hres. auto.
Qed.

(** Closes the goal of a guarded handler once its request [r], with
    user [caller], is known. *)
Ltac guarded_handler caller :=
  match goal with
  | |- context [parseInt ?v] =>
      let Hparam := fresh "Hparam" in
      destruct (parseInt v) eqn:Hparam; [discriminate |]
  end;
  match goal with
  | |- context [?table !! ?i] =>
      let Hb := fresh "Hb" in
      destruct (table !! i) eqn:Hb; [| discriminate]
  end;
  match goal with
  | |- context [not_admin ?r && branch_denied ?r ?b] =>
      let Hguard := fresh "Hguard" in
      destruct (not_admin r && branch_denied r b) eqn:Hguard; [discriminate |];
      intros [= <-]; split; [reflexivity |];
      exists caller, b; repeat split; try assumption;
      apply (guarded_write r caller b eq_refl Hguard); assumption
  end.

(** X16. The updates of an inventory item, a reservation and a feedback,
    and the deletion of a feedback, are reached only on the row named in
    the path; for a caller who is not an ADMIN this row belongs to the
    home branch of the caller, which is not 0. *)
Theorem guarded_writes_own_branch (jwt : Jwt) (db : DB) (table : gmap Z Z)
    (req : Req) (w : Write) :
  (PATCH_inventory jwt db table req = Issued w ->
   w = UpdateRow "inventoryItem" (written_id w) /\ writes_own_branch jwt db table req w)
  /\ (PATCH_reservations_status jwt db table req = Issued w ->
      w = UpdateRow "reservation" (written_id w) /\ writes_own_branch jwt db table req w)
  /\ (PATCH_feedback_approve jwt db table req = Issued w ->
      w = UpdateRow "feedback" (written_id w) /\ writes_own_branch jwt db table req w)
  /\ (DELETE_feedback jwt db table req = Issued w ->
      w = DeleteRow "feedback" (written_id w) /\ writes_own_branch jwt db table req w).
Proof.
  unfold writes_own_branch. split; [| split; [| split]].
  - unfold PATCH_inventory, route_effect.
    change [authenticateToken jwt db; attachActiveBranch db; requireRoles ["ADMIN"; "MANAGER"]]
      with ([authenticateToken jwt db; attachActiveBranch db]
            ++ [requireRoles ["ADMIN"; "MANAGER"]])%list.
    rewrite run_chain_app.
    destruct (run_chain [authenticateToken jwt db; attachActiveBranch db] req)
      as [req1 | s m] eqn:H; [| discriminate].
    cbn [run_chain].
    destruct (requireRoles _ req1) as [r2 | s m] eqn:Hroles; [| discriminate].
    apply requireRoles_next in Hroles as (-> & _ & _).
    apply attached_request in H as (caller & Hauth & _ & ->).
    unfold inventory_update_handler.
    cbn [req_body req_user req_params_id set_activeBranchId set_user].
    destruct (req_body req) as [body |]; [| discriminate].
    guarded_handler caller.
  - unfold PATCH_reservations_status, route_effect. cbn [run_chain].
    destruct (authenticateToken jwt db req) as [r0 | s m] eqn:Hauth; [| discriminate].
    destruct (authenticateToken_next jwt db req r0 Hauth) as (caller & -> & _).
    destruct (blockChefFromNonOrders _) as [r1 | s m] eqn:Hblock; [| discriminate].
    apply blockChefFromNonOrders_next in Hblock as [-> _].
    destruct (requireRoles _ _) as [r2 | s m] eqn:Hroles; [| discriminate].
    apply requireRoles_next in Hroles as (-> & _ & _).
    unfold reservation_status_handler. cbn [req_body req_user req_params_id set_user].
    destruct (req_body req) as [body |]; [| discriminate].
    guarded_handler caller.
  - unfold PATCH_feedback_approve, route_effect. cbn [run_chain].
    destruct (authenticateToken jwt db req) as [r0 | s m] eqn:Hauth; [| discriminate].
    destruct (authenticateToken_next jwt db req r0 Hauth) as (caller & -> & _).
    destruct (requireRoles _ _) as [r2 | s m] eqn:Hroles; [| discriminate].
    apply requireRoles_next in Hroles as (-> & _ & _).
    unfold feedback_approve_handler. cbn [req_user req_params_id set_user].
    guarded_handler caller.
  - unfold DELETE_feedback, route_effect. cbn [run_chain].
    destruct (authenticateToken jwt db req) as [r0 | s m] eqn:Hauth; [| discriminate].
    destruct (authenticateToken_next jwt db req r0 Hauth) as (caller & -> & _).
    destruct (requireRoles _ _) as [r2 | s m] eqn:Hroles; [| discriminate].
    apply requireRoles_next in Hroles as (-> & _ & _).
    unfold feedback_delete_handler. cbn [req_user req_params_id set_user].
    guarded_handler caller.
Qed.

Lemma guarded_writes_own_branch_witness :
  UpdateRow "inventoryItem" 100 = UpdateRow "inventoryItem" 100
  /\ writes_own_branch Scenarios.jwt Scenarios.db Scenarios.orders
       (Scenarios.bearer "10" "100" "" Undefined Scenarios.any_body)
       (UpdateRow "inventoryItem" 100).
Proof.
  apply (guarded_writes_own_branch Scenarios.jwt Scenarios.db Scenarios.orders
           (Scenarios.bearer "10" "100" "" Undefined Scenarios.any_body)
           (UpdateRow "inventoryItem" 100)).
  vm_compute. reflexivity.
Defined.

End BranchWrites.

(** ** The test routes and the password script *)

Section TestRoutesAndScripts.

Lemma requireManagerOrAdmin_true (req : Req) (caller : User) :
  req_user req = Some caller ->
  requireManagerOrAdmin req = true ->
  user_role caller = "MANAGER" \/ user_role caller = "ADMIN".
Proof.
  unfold requireManagerOrAdmin, req_role. intros -> H. simpl in H.
  apply orb_prop in H as [H | H]; [left; now apply String.eqb_eq in H |].
  apply orb_prop in H as [H | H]; [right; now apply String.eqb_eq in H | discriminate].
Qed.

(** X17. The test routes give a MANAGER only their own branch: the
    price list answers with rows only for the branch [parseInt] reads in
    the path, to an ADMIN, or to a MANAGER whose home branch it is; the
    price update is reached only on the row named in the path, by an
    ADMIN, or by a MANAGER of the branch of that row. Roles are compared
    as stored. *)
Theorem test_routes_own_branch (jwt : Jwt) (db : DB) (prices : gmap Z Z) (req : Req) :
  (forall q,
      GET_test_prices jwt db req = Rows q ->
      exists caller b,
        authenticateToken jwt db req = Next (set_user req caller)
        /\ q = FindMany "branchPrice" (mkWhere (Some (Some (Int b))) None)
        /\ parseInt (Str (req_params_branchId req)) = Int b
        /\ (user_role caller = "ADMIN"
            \/ (user_role caller = "MANAGER" /\ user_branchId caller = Some b)))
  /\ (forall w,
        PATCH_test_price jwt db prices req = Issued w ->
        exists caller i b,
          authenticateToken jwt db req = Next (set_user req caller)
          /\ w = UpdateRow "branchPrice" i
          /\ parseInt (Str (req_params_id req)) = Int i
          /\ prices !! i = Some b
          /\ (user_role caller = "ADMIN"
              \/ (user_role caller = "MANAGER" /\ user_branchId caller = Some b))).
Proof.
  split.
  - intros q. unfold GET_test_prices.
    destruct (authenticateToken jwt db req) as [r0 | s m] eqn:Hauth; [| discriminate].
    destruct (authenticateToken_next jwt db req r0 Hauth) as (caller & -> & _).
    destruct (requireManagerOrAdmin _) eqn:Hrole; simpl; [| discriminate].
    apply (requireManagerOrAdmin_true (set_user req caller) caller eq_refl) in Hrole.
    unfold resolveScopedBranchId. cbn [req_user req_params_branchId set_user].
    destruct (parseInt (Str (req_params_branchId req))) as [| n] eqn:Hparam; [discriminate |].
    destruct (String.eqb_spec (user_role caller) "ADMIN") as [Hadm | Hadm].
    + intros [= <-]. exists caller, n. auto.
    + destruct Hrole as [Hman | Hadm']; [| contradiction].
      rewrite Hman. simpl.
      destruct (user_branchId caller) as [b |] eqn:Hhome; [| discriminate].
      destruct (Z.eqb_spec n b) as [-> | Hne]; simpl; [| discriminate].
      intros [= <-]. exists caller, b.
      do 3 (split; [reflexivity |]). right. split; assumption.
  - intros w. unfold PATCH_test_price.
    destruct (authenticateToken jwt db req) as [r0 | s m] eqn:Hauth; [| discriminate].
    destruct (authenticateToken_next jwt db req r0 Hauth) as (caller & -> & _).
    destruct (requireManagerOrAdmin _) eqn:Hrole; simpl; [| discriminate].
    apply (requireManagerOrAdmin_true (set_user req caller) caller eq_refl) in Hrole.
    cbn [req_user req_params_id req_body set_user].
    destruct (parseInt (Str (req_params_id req))) as [| i] eqn:Hparam; [discriminate |].
    destruct (prices !! i) as [b |] eqn:Hb; [| discriminate].
    destruct (foreign_to_manager caller b) eqn:Hforeign; [discriminate |].
    destruct (req_body req) as [body |]; [| discriminate].
    intros [= <-]. exists caller, i, b. repeat split; try assumption.
    destruct Hrole as [Hman | Hadm]; [right | now left].
    split; [assumption |]. unfold foreign_to_manager in Hforeign.
    rewrite Hman in Hforeign. simpl in Hforeign.
    destruct (user_branchId caller) as [b' |]; [| discriminate].
    apply negb_false_iff, Z.eqb_eq in Hforeign. now subst.
Qed.

Lemma test_routes_own_branch_witness :
  exists caller b,
    authenticateToken Scenarios.jwt Scenarios.db (Scenarios.bearer "10" "" "5" Undefined None)
    = Next (set_user (Scenarios.bearer "10" "" "5" Undefined None) caller)
    /\ FindMany "branchPrice" (mkWhere (Some (Some (Int 5))) None)
       = FindMany "branchPrice" (mkWhere (Some (Some (Int b))) None)
    /\ parseInt (Str "5") = Int b
    /\ (user_role caller = "ADMIN"
        \/ (user_role caller = "MANAGER" /\ user_branchId caller = Some b)).
Proof.
  apply (test_routes_own_branch Scenarios.jwt Scenarios.db Scenarios.orders
           (Scenarios.bearer "10" "" "5" Undefined None)).
  vm_compute. reflexivity.
Defined.

Lemma hash_row_idempotent (hash : Hash) (r : UserRow) :
  (forall p, isHashed (hash p) = true) ->
  hash_row hash (hash_row hash r) = hash_row hash r.
Proof.
  intros Hhash. unfold hash_row.
  destruct (isHashed (row_password r)) eqn:Hr.
  - now rewrite Hr.
  - cbn [row_password]. now rewrite Hhash.
Qed.

(** X18. With a hash function whose results are recognised as hashes
    (they start with [$2a$], [$2b$] or [$2y$]), [hashAllPasswords]
    leaves every stored password hashed, keeps the rows whose password
    already was, changes no role, home branch or active branch, and
    running it again changes nothing. *)
Theorem hashAllPasswords_idempotent (hash : Hash) (db : DB) :
  (forall p, isHashed (hash p) = true) ->
  hashAllPasswords hash (hashAllPasswords hash db) = hashAllPasswords hash db
  /\ (forall i r, users (hashAllPasswords hash db) !! i = Some r ->
        isHashed (row_password r) = true)
  /\ (forall i r, users db !! i = Some r ->
        exists r', users (hashAllPasswords hash db) !! i = Some r'
                   /\ row_role r' = row_role r
                   /\ row_branchId r' = row_branchId r
                   /\ row_activeBranchId r' = row_activeBranchId r
                   /\ (isHashed (row_password r) = true -> r' = r)
                   /\ (isHashed (row_password r) = false ->
                       row_password r' = hash (row_password r)))
  /\ (forall i, users db !! i = None -> users (hashAllPasswords hash db) !! i = None)
  /\ branches (hashAllPasswords hash db) = branches db.
Proof.
  intros Hhash. unfold hashAllPasswords. cbn [users branches].
  split; [| split; [| split; [| split]]].
  - f_equal. rewrite <- map_fmap_compose. apply map_fmap_ext.
    intros i r _. now apply hash_row_idempotent.
  - intros i r. rewrite lookup_fmap. destruct (users db !! i) as [r0 |]; [| discriminate].
    simpl. intros [= <-]. unfold hash_row.
    destruct (isHashed (row_password r0)) eqn:Hr; [assumption | apply Hhash].
  - intros i r Hr. rewrite lookup_fmap, Hr. simpl. eexists. split; [reflexivity |].
    unfold hash_row. destruct (isHashed (row_password r)); repeat split; congruence.
  - intros i Hi. now rewrite lookup_fmap, Hi.
  - reflexivity.
Qed.

Lemma hashAllPasswords_idempotent_witness :
  hashAllPasswords Scenarios.hash (hashAllPasswords Scenarios.hash Scenarios.db)
  = hashAllPasswords Scenarios.hash Scenarios.db.
Proof.
  apply (hashAllPasswords_idempotent Scenarios.hash Scenarios.db).
  intros p. reflexivity.
Defined.

End TestRoutesAndScripts.

(** ** Authentication comes first *)

Section Authentication.

Lemma run_chain_authenticated (jwt : Jwt) (db : DB) (ms : list Middleware) (req req' : Req) :
  run_chain (authenticateToken jwt db :: ms) req = Next req' ->
  authenticated jwt db req.
Proof.
  cbn [run_chain].
  destruct (authenticateToken jwt db req) as [r0 | s m] eqn:Hauth; [| discriminate].
  intros _. exact (authenticateToken_authenticated jwt db req r0 Hauth).
Qed.

Lemma route_authenticated (jwt : Jwt) (db : DB) (ms : list Middleware)
    (handler : Req -> outcome) (req : Req) (q : Query) :
  route (authenticateToken jwt db :: ms) handler req = Rows q ->
  authenticated jwt db req.
Proof.
  unfold route.
  destruct (run_chain _ req) as [r |] eqn:H; [| discriminate].
  intros _. exact (run_chain_authenticated jwt db ms req r H).
Qed.

Lemma route_effect_authenticated (jwt : Jwt) (db : DB) (ms : list Middleware)
    (handler : Req -> effect) (req : Req) (w : Write) :
  route_effect (authenticateToken jwt db :: ms) handler req = Issued w ->
  authenticated jwt db req.
Proof.
  unfold route_effect.
  destruct (run_chain _ req) as [r |] eqn:H; [| discriminate].
  intros _. exact (run_chain_authenticated jwt db ms req r H).
Qed.

Lemma route_db_authenticated (jwt : Jwt) (db : DB) (ms : list Middleware)
    (handler : DB -> Req -> outcome * DB) (req : Req) :
  snd (route_db (authenticateToken jwt db :: ms) handler db req) <> db ->
  authenticated jwt db req.
Proof.
  unfold route_db.
  destruct (run_chain _ req) as [r |] eqn:H; [| now intros []].
  intros _. exact (run_chain_authenticated jwt db ms req r H).
Qed.

(** X19. Nothing is read or written for a request that is not
    authenticated: each of the routes answers with rows, reaches a
    write, changes the [User] table or gives an active branch only if
    the Authorization header carries a token that [jwt.verify] accepts
    and whose user id is the id of a stored user. *)
Theorem nothing_without_authentication (jwt : Jwt) (hash : Hash) (db : DB)
    (table : gmap Z Z) (req : Req) :
  (forall q,
      GET_inventory jwt db req = Rows q \/ GET_reservations jwt db req = Rows q
      \/ GET_admin_staff jwt db req = Rows q \/ GET_orders_branch jwt db req = Rows q
      \/ GET_test_prices jwt db req = Rows q ->
      authenticated jwt db req)
  /\ (forall w,
        PATCH_orders_status jwt db table req = Issued w
        \/ PATCH_inventory jwt db table req = Issued w
        \/ PATCH_reservations_status jwt db table req = Issued w
        \/ PATCH_feedback_approve jwt db table req = Issued w
        \/ DELETE_feedback jwt db table req = Issued w
        \/ PATCH_test_price jwt db table req = Issued w ->
        authenticated jwt db req)
  /\ (forall op, snd (user_update_route op jwt hash db req) <> db -> authenticated jwt db req)
  /\ (forall a, GET_users_active_branch jwt db req = ActiveIs a -> authenticated jwt db req).
Proof.
  split; [| split; [| split]].
  - intros q [H | [H | [H | [H | H]]]].
    + exact (route_authenticated jwt db _ _ req q H).
    + exact (route_authenticated jwt db _ _ req q H).
    + exact (route_authenticated jwt db _ _ req q H).
    + exact (route_authenticated jwt db _ _ req q H).
    + unfold GET_test_prices in H.
      destruct (authenticateToken jwt db req) as [r0 | s m] eqn:Hauth; [| discriminate].
      exact (authenticateToken_authenticated jwt db req r0 Hauth).
  - intros w [H | [H | [H | [H | [H | H]]]]].
    + exact (route_effect_authenticated jwt db _ _ req w H).
    + exact (route_effect_authenticated jwt db _ _ req w H).
    + exact (route_effect_authenticated jwt db _ _ req w H).
    + exact (route_effect_authenticated jwt db _ _ req w H).
    + exact (route_effect_authenticated jwt db _ _ req w H).
    + unfold PATCH_test_price in H.
      destruct (authenticateToken jwt db req) as [r0 | s m] eqn:Hauth; [| discriminate].
      exact (authenticateToken_authenticated jwt db req r0 Hauth).
  - intros op H. destruct op; exact (route_db_authenticated jwt db _ _ req H).
  - intros a H. unfold GET_users_active_branch in H.
    destruct (authenticateToken jwt db req) as [r0 | s m] eqn:Hauth; [| discriminate].
    exact (authenticateToken_authenticated jwt db req r0 Hauth).
Qed.

Lemma nothing_without_authentication_witness :
  authenticated Scenarios.jwt Scenarios.db (Scenarios.bearer "14" "" "9" Undefined None).
Proof.
  apply (nothing_without_authentication Scenarios.jwt Scenarios.hash Scenarios.db
           Scenarios.orders (Scenarios.bearer "14" "" "9" Undefined None))
    with (q := FindMany "order" (mkWhere (Some (Some (Int 2))) None)).
  right. right. right. left. vm_compute. reflexivity.
Defined.

End Authentication.

(** ** The CHEF *)

Section Chef.




End Chef.
